(** * brandtest: the v0 chat proxy route and the application header

  Shallow embedding of
    - [src/app/api/v0-chat/route.ts]      (module [Route])
    - [src/app/components/app-header.tsx] (module [AppHeader])
  together with the properties of the specification that concern them. *)

From Stdlib Require Import String Ascii List ZArith Bool Lia.
Import ListNotations.
Open Scope string_scope.
Open Scope list_scope.
Open Scope Z_scope.

Set Warnings "-register-all".

(** ** JavaScript values shared by both files *)

Module Js.

(** A JSON value, as [request.json()] yields it and as [NextResponse.json]
    serialises it.  Numbers are taken in their integer fragment: the route
    only tests them for truthiness and passes them on.  An object is the
    list of its own properties. *)
Inductive json : Type :=
| JNull
| JBool (b : bool)
| JNum (n : Z)
| JStr (s : string)
| JArr (items : list json)
| JObj (props : list (string * json)).

(** What the platform and the repository's own code throw: an [Error] with
    a string for its [message], or a value that is not an instance of
    [Error]. *)
Inductive thrown : Type :=
| JsError (message : string)
| NotAnError (v : json).

(** Anything code outside the repository can throw.  Besides the values
    above it may be an [Error] whose [message] is not a string:
    [undefined] ([None]) or any other value.  ([OddError (Some (JStr s))]
    behaves as [JsError s] does.) *)
Inductive raised : Type :=
| Plain (t : thrown)
| OddError (message : option json).

Coercion Plain : thrown >-> raised.

(** The outcome of a promise that rejects with values of [E]. *)
Inductive settled (E A : Type) : Type :=
| Fulfilled (a : A)
| Rejected (t : E).
Arguments Fulfilled {E A} & a.
Arguments Rejected {E A} & t.

(** [!!s] on a string. *)
Definition truthy_string (s : string) : bool :=
  negb (s =? EmptyString)%string.

(** [!!v] on a JSON value. *)
Definition truthy (v : json) : bool :=
  match v with
  | JNull => false
  | JBool b => b
  | JNum n => negb (n =? 0)
  | JStr s => truthy_string s
  | JArr _ => true
  | JObj _ => true
  end.

(** [!!v] on a possibly [undefined] value ([None] is [undefined]). *)
Definition truthy_opt (v : option json) : bool :=
  match v with
  | Some x => truthy x
  | None => false
  end.

(** [v || d] where [v] may be [undefined]. *)
Definition or_else (v : option json) (d : json) : json :=
  match v with
  | Some x => if truthy x then x else d
  | None => d
  end.

(** [s || d] on optional strings. *)
Definition or_else_string (s : option string) (d : string) : string :=
  match s with
  | Some x => if truthy_string x then x else d
  | None => d
  end.

(** [v === 'lit'] for a string literal. *)
Definition strict_eq_string (v : option json) (lit : string) : bool :=
  match v with
  | Some (JStr s) => (s =? lit)%string
  | _ => false
  end.

(** First binding of a key in a property list. *)
Fixpoint assoc {A : Type} (k : string) (l : list (string * A)) : option A :=
  match l with
  | [] => None
  | (k', v) :: rest => if (k' =? k)%string then Some v else assoc k rest
  end.

(** [v.key] for the keys the route destructures (none of them lives on a
    prototype): an own property of an object, [undefined] on anything
    else.  Reading a property of [null] throws and is handled where the
    destructuring happens. *)
Definition prop (v : json) (key : string) : option json :=
  match v with
  | JObj props => assoc key props
  | _ => None
  end.

(** [hay.includes(needle)]: [needle] occurs as a contiguous substring. *)
Fixpoint includes (hay needle : string) : bool :=
  String.prefix needle hay
  || match hay with
     | EmptyString => false
     | String _ rest => includes rest needle
     end.

(** The keys of an object, in order. *)
Definition keys (v : json) : list string :=
  match v with
  | JObj props => map fst props
  | _ => []
  end.

End Js.

(** ** src/app/api/v0-chat/route.ts *)

Module Route.
Import Js.

(** *** The v0 SDK, as the route sees it *)

(** A message as [chats.findMessages] returns it: the four fields the
    route reads and whatever else the SDK sends along. *)
Record SdkMessage : Type := {
  m_id : string;
  m_role : string;
  m_content : string;
  m_createdAt : string;
  m_rest : list (string * json)
}.

Record SdkFile : Type := {
  f_name : string;
  f_content : string;
  f_rest : list (string * json)
}.

Record SdkVersion : Type := {
  v_content : option string;
  v_files : option (list SdkFile);
  v_rest : list (string * json)
}.

Record SdkChat : Type := {
  c_id : string;
  c_webUrl : string;
  c_apiUrl : string;
  c_shareable : bool;
  c_privacy : string;
  c_latestVersion : option SdkVersion;
  c_rest : list (string * json)
}.

Record MessagesResponse : Type := {
  r_data : option (list SdkMessage)
}.

(** [chats.create] and [chats.sendMessage] resolve to a chat or to a
    [ReadableStream]. *)
Inductive ChatOrStream : Type :=
| AChat (c : SdkChat)
| AStream.

Inductive SdkCall : Type :=
| GetById (chatId : string)
| FindMessages (chatId : string) (limit : Z)
| Create (message system : json) (responseMode : string)
| SendMessage (chatId message : json) (responseMode : string).

Inductive SdkOutcome : Type :=
| GotChat (c : SdkChat)
| GotMessages (r : MessagesResponse)
| GotStream
| Threw (t : raised).

(** What a request handler does besides returning: the SDK calls it
    awaits, each with its outcome, and the lines it writes with
    [console.error]. *)
Inductive Event : Type :=
| Sdk (call : SdkCall) (outcome : SdkOutcome)
| ConsoleError (label : string) (t : raised).

Definition Log : Type := list Event.

(** A client made by [createClient].  The service is outside the
    repository: each operation answers as a function of its arguments and
    of everything the handler did before. *)
Record Client : Type := {
  chats_getById : Log -> string -> settled raised SdkChat;
  chats_findMessages : Log -> string -> Z -> settled raised MessagesResponse;
  chats_create : Log -> json -> json -> string -> settled raised ChatOrStream;
  chats_sendMessage :
    Log -> json -> json -> string -> settled raised ChatOrStream
}.

(** [createClient({ apiKey })]. *)
Definition SdkModule : Type := string -> Client.

(** [process.env]. *)
Record Env : Type := {
  V0_API_KEY : option string
}.

(** *** Asynchronous code that may throw *)

Inductive completion (A : Type) : Type :=
| Normal (a : A)
| Throw (t : raised).
Arguments Normal {A} a.
Arguments Throw {A} t.

Definition Async (A : Type) : Type := Log -> Log * completion A.

Definition ret {A : Type} (a : A) : Async A :=
  fun log => (log, Normal a).

Definition throw {A : Type} (t : raised) : Async A :=
  fun log => (log, Throw t).

Definition bind {A B : Type} (m : Async A) (k : A -> Async B) : Async B :=
  fun log =>
    match m log with
    | (log', Normal a) => k a log'
    | (log', Throw t) => (log', Throw t)
    end.

Notation "x <- m ;; k" := (bind m (fun x => k))
  (at level 61, m at next level, right associativity).

(** [await] of an SDK operation: the call and its outcome are recorded. *)
Definition await {A : Type} (call : SdkCall)
    (answer : Log -> settled raised A)
    (seen : A -> SdkOutcome) : Async A :=
  fun log =>
    match answer log with
    | Fulfilled a => (log ++ [Sdk call (seen a)], Normal a)
    | Rejected t => (log ++ [Sdk call (Threw t)], Throw t)
    end.

Definition seen_chat_or_stream (x : ChatOrStream) : SdkOutcome :=
  match x with
  | AChat c => GotChat c
  | AStream => GotStream
  end.

Definition getById (client : Client) (chatId : string) : Async SdkChat :=
  await (GetById chatId)
        (fun log => chats_getById client log chatId) GotChat.

Definition findMessages (client : Client) (chatId : string) (limit : Z)
    : Async MessagesResponse :=
  await (FindMessages chatId limit)
        (fun log => chats_findMessages client log chatId limit) GotMessages.

Definition create (client : Client) (message system : json)
    (responseMode : string) : Async ChatOrStream :=
  await (Create message system responseMode)
        (fun log => chats_create client log message system responseMode)
        seen_chat_or_stream.

Definition sendMessage (client : Client) (chatId message : json)
    (responseMode : string) : Async ChatOrStream :=
  await (SendMessage chatId message responseMode)
        (fun log => chats_sendMessage client log chatId message responseMode)
        seen_chat_or_stream.

(** *** The route's own types *)

Record Message : Type := {
  id_ : string;
  role : string;
  content : string;
  createdAt : string
}.

Record File : Type := {
  name : string;
  file_content : string
}.

Record Version : Type := {
  version_content : option string;
  files : option (list File)
}.

Record ChatDetail : Type := {
  id : string;
  webUrl : string;
  apiUrl : string;
  shareable : bool;
  privacy : string;
  latestVersion : option Version;
  messages : option (list Message)
}.

Record FetchOptions : Type := {
  includeMessages : option bool
}.

Record Response : Type := {
  status : Z;
  body : json
}.

(** A [NextRequest]: the query string as [nextUrl.searchParams] holds it
    and what [request.json()] settles to. *)
Record Request : Type := {
  searchParams : list (string * string);
  json_body : settled thrown json
}.

(** [searchParams.get(name)]: the first value, [null] when absent. *)
Definition searchParams_get (req : Request) (name : string) : option string :=
  assoc name (searchParams req).

(** [NextResponse.json(body)] and [NextResponse.json(body, { status })]. *)
Definition json_response (b : json) : Response :=
  {| status := 200; body := b |}.

Definition json_response_with (b : json) (st : Z) : Response :=
  {| status := st; body := b |}.

(** *** Serialisation of the objects the route returns *)

Definition message_json (m : Message) : json :=
  JObj [("id", JStr (id_ m)); ("role", JStr (role m));
        ("content", JStr (content m)); ("createdAt", JStr (createdAt m))].

Definition file_json (f : File) : json :=
  JObj [("name", JStr (name f)); ("content", JStr (file_content f))].

(** A file object handed on exactly as the SDK returned it. *)
Definition sdk_file_json (f : SdkFile) : json :=
  JObj (("name", JStr (f_name f)) :: ("content", JStr (f_content f))
        :: f_rest f).

(** *** The functions of the file *)

Definition missing_key_message : string :=
  "V0_API_KEY not configured. Please add it to your .env.local file.".

Definition getV0Client (env : Env) (sdk : SdkModule) : Async Client :=
  match V0_API_KEY env with
  | Some apiKey =>
      if truthy_string apiKey then ret (sdk apiKey)
      else throw (JsError missing_key_message)
  | None => throw (JsError missing_key_message)
  end.

Definition project_file (file : SdkFile) : File :=
  {| name := f_name file; file_content := f_content file |}.

Definition project_version (v : SdkVersion) : Version :=
  {| version_content := v_content v;
     files := option_map (map project_file) (v_files v) |}.

Definition project_message (message : SdkMessage) : Message :=
  {| id_ := m_id message; role := m_role message;
     content := m_content message; createdAt := m_createdAt message |}.

Definition wants_messages (options : option FetchOptions) : bool :=
  match options with
  | Some o => match includeMessages o with Some b => b | None => false end
  | None => false
  end.

Definition fetchChatDetail (env : Env) (sdk : SdkModule) (chatId : string)
    (options : option FetchOptions) : Async ChatDetail :=
  client <- getV0Client env sdk ;;
  chat <- getById client chatId ;;
  let detail :=
    {| id := c_id chat;
       webUrl := c_webUrl chat;
       apiUrl := c_apiUrl chat;
       shareable := c_shareable chat;
       privacy := c_privacy chat;
       latestVersion := option_map project_version (c_latestVersion chat);
       messages := None |} in
  if wants_messages options then
    messagesResponse <- findMessages client chatId 50 ;;
    ret {| id := id detail;
           webUrl := webUrl detail;
           apiUrl := apiUrl detail;
           shareable := shareable detail;
           privacy := privacy detail;
           latestVersion := latestVersion detail;
           messages :=
             Some match r_data messagesResponse with
                  | Some data => map project_message data
                  | None => []
                  end |}
  else ret detail.

(** The [catch] clause shared, up to its texts, by both handlers. *)
Definition error_message (t : thrown) (fallback : string) : string :=
  match t with
  | JsError message => message
  | NotAnError _ => fallback
  end.

Definition error_status (message : string) : Z :=
  if includes message "V0_API_KEY" then 500 else 400.

(** How a handler ends: with a response, or with an exception that leaves
    it. *)
Inductive Outcome : Type :=
| Answered (response : Response)
| Escaped (error : thrown).

(** [error instanceof Error ? error.message : fallback], as the value it
    is. *)
Definition caught_message (error : raised) (fallback : string)
    : option json :=
  match error with
  | Plain t => Some (JStr (error_message t fallback))
  | OddError message => message
  end.

(** [items.includes(key)] on an array. *)
Definition array_includes (items : list json) (key : string) : bool :=
  existsb (fun item => match item with
                       | JStr s => (s =? key)%string
                       | _ => false
                       end) items.

(** The [TypeError]s of [message.includes(...)] on a value that has no
    such method, in V8's wording. *)
Definition includes_of_undefined_message : string :=
  "Cannot read properties of undefined (reading 'includes')".
Definition includes_of_null_message : string :=
  "Cannot read properties of null (reading 'includes')".
Definition includes_not_a_function_message : string :=
  "message.includes is not a function".

(** The [catch] clause after [console.error]: [message.includes] is the
    substring test on a string and the membership test on an array, and
    throws on every other value; what it throws leaves the handler. *)
Definition catch_clause (fallback : string) (error : raised) : Outcome :=
  match caught_message error fallback with
  | Some (JStr message) =>
      Answered (json_response_with (JObj [("error", JStr message)])
                                   (error_status message))
  | Some (JArr items) =>
      Answered (json_response_with
                  (JObj [("error", JArr items)])
                  (if array_includes items "V0_API_KEY" then 500 else 400))
  | Some JNull => Escaped (JsError includes_of_null_message)
  | Some _ => Escaped (JsError includes_not_a_function_message)
  | None => Escaped (JsError includes_of_undefined_message)
  end.

Definition handle (label fallback : string) (attempt : Async Response)
    : Outcome * Log :=
  match attempt [] with
  | (log, Normal response) => (Answered response, log)
  | (log, Throw error) =>
      (catch_clause fallback error, log ++ [ConsoleError label error])
  end.

Definition messages_or_empty (ms : option (list Message)) : list Message :=
  match ms with
  | Some l => l
  | None => []
  end.

Definition GET_try (env : Env) (sdk : SdkModule) (request : Request)
    : Async Response :=
  match searchParams_get request "chatId" with
  | None =>
      ret (json_response_with
             (JObj [("error", JStr "chatId query parameter is required")])
             400)
  | Some chatId =>
      if negb (truthy_string chatId) then
        ret (json_response_with
               (JObj [("error", JStr "chatId query parameter is required")])
               400)
      else
        chatDetail <- fetchChatDetail env sdk chatId
                        (Some {| includeMessages := Some true |}) ;;
        ret (json_response
               (JObj [("chatId", JStr (id chatDetail));
                      ("webUrl", JStr (webUrl chatDetail));
                      ("apiUrl", JStr (apiUrl chatDetail));
                      ("shareable", JBool (shareable chatDetail));
                      ("privacy", JStr (privacy chatDetail));
                      ("messages",
                       JArr (map message_json
                               (messages_or_empty (messages chatDetail))))]))
  end.

Definition GET (env : Env) (sdk : SdkModule) (request : Request)
    : Outcome * Log :=
  handle "V0 Chat GET Error:" "Failed to fetch chat details"
         (GET_try env sdk request).

(** [request.json()]. *)
Definition request_json (request : Request) : Async json :=
  match json_body request with
  | Fulfilled b => ret b
  | Rejected t => throw t
  end.

(** The [TypeError] of [const { action, ... } = body] on [null], in V8's
    wording. *)
Definition destructure_null_message : string :=
  "Cannot destructure property 'action' of 'body' as it is null.".

(** [Invalid action. Use "create" or "send"] *)
Definition invalid_action_message : string :=
  let q := String (ascii_of_nat 34) EmptyString in
  String.concat q ["Invalid action. Use "; "create"; " or "; "send"; EmptyString].

Definition create_default_message : string := "Hello!".
Definition create_default_system : string :=
  "You are a helpful coding assistant.".

Definition send_required_response : Response :=
  json_response_with
    (JObj [("error", JStr "chatId and message are required for send action")])
    400.

Definition POST_try (env : Env) (sdk : SdkModule) (request : Request)
    : Async Response :=
  body <- request_json request ;;
  match body with
  | JNull => throw (JsError destructure_null_message)
  | _ =>
    let action := prop body "action" in
    let message := prop body "message" in
    let chatId := prop body "chatId" in
    let system := prop body "system" in
    v0Client <- getV0Client env sdk ;;
    if strict_eq_string action "create" then
      chat <- create v0Client
                (or_else message (JStr create_default_message))
                (or_else system (JStr create_default_system))
                "sync" ;;
      match chat with
      | AStream =>
          ret (json_response_with
                 (JObj [("error",
                         JStr "Streaming response not supported. Please use standard chat creation.")])
                 400)
      | AChat createdChat =>
          refreshedChat <- fetchChatDetail env sdk (c_id createdChat) None ;;
          ret (json_response
                 (JObj [("chatId", JStr (id refreshedChat));
                        ("webUrl", JStr (webUrl refreshedChat));
                        ("apiUrl", JStr (apiUrl refreshedChat));
                        ("shareable", JBool (shareable refreshedChat));
                        ("privacy", JStr (privacy refreshedChat));
                        ("message", JStr "Chat created successfully");
                        ("response",
                         JStr (or_else_string
                                 (match latestVersion refreshedChat with
                                  | Some v => version_content v
                                  | None => None
                                  end)
                                 "Chat created successfully"));
                        ("files",
                         JArr (match latestVersion refreshedChat with
                               | Some {| files := Some fs |} => map file_json fs
                               | _ => []
                               end))]))
      end
    else if strict_eq_string action "send" then
      (* [!chatId || !message]: an undefined property is falsy *)
      match chatId, message with
      | Some chatId', Some message' =>
          if negb (truthy chatId') || negb (truthy message') then
            ret send_required_response
          else
            response <- sendMessage v0Client chatId' message' "sync" ;;
            match response with
            | AStream =>
                ret (json_response_with
                       (JObj [("error",
                               JStr "Streaming response not supported. Please use standard message sending.")])
                       400)
            | AChat chatDetail =>
                ret (json_response
                       (JObj [("success", JBool true);
                              ("response",
                               JStr (or_else_string
                                       (match c_latestVersion chatDetail with
                                        | Some v => v_content v
                                        | None => None
                                        end)
                                       "Message sent successfully"));
                              ("files",
                               JArr (match c_latestVersion chatDetail with
                                     | Some {| v_files := Some fs |} =>
                                         map sdk_file_json fs
                                     | _ => []
                                     end))]))
            end
      | _, _ => ret send_required_response
      end
    else
      ret (json_response_with
             (JObj [("error", JStr invalid_action_message)])
             400)
  end.

Definition POST (env : Env) (sdk : SdkModule) (request : Request)
    : Outcome * Log :=
  handle "V0 Chat API Error:" "Failed to process chat request"
         (POST_try env sdk request).

(** The SDK calls of a log, in order. *)
Definition sdk_calls (log : Log) : list SdkCall :=
  flat_map (fun e => match e with
                     | Sdk call _ => [call]
                     | ConsoleError _ _ => []
                     end) log.

End Route.

(** ** src/app/components/app-header.tsx *)

Module AppHeader.
Import Js.

Record User : Type := {
  user_id : string;
  user_username : string;
  user_email : option string;
  user_name : option string;
  user_avatar : option string
}.

Inductive AuthProvider : Type := github | vercel.

Record SessionInfo : Type := {
  user : option User;
  authProvider : option AuthProvider
}.

Record GitHubStatusResponse : Type := {
  connected : bool;
  username : option string;
  connectedAt : option string
}.

(** [new Date(s)]. *)
Inductive Date : Type := NewDate (s : string).

(** The value of [githubConnectionAtom]. *)
Record GitHubConnection : Type := {
  conn_connected : bool;
  conn_username : option string;
  conn_connectedAt : option Date
}.

(** The value of [githubSelectionAtom] when it is not [null]. *)
Record Selection : Type := {
  owner : string;
  repo : string;
  branch : string
}.

Inductive PushStatus : Type := idle | loading | success | error.

Record PushState : Type := {
  status : PushStatus;
  message : option string
}.

(** The component's [useState] cells and the atoms it reads and writes. *)
Record State : Type := {
  session : option SessionInfo;
  sessionLoading : bool;
  statusLoading : bool;
  pushState : PushState;
  selection : option Selection;
  githubConnection : GitHubConnection;
  githubConnectionInitialized : bool;
  branchInput : string;
  commitMessage : string
}.

(** *** Setters *)

Definition setSession (v : option SessionInfo) (st : State) : State :=
  {| session := v; sessionLoading := sessionLoading st;
     statusLoading := statusLoading st; pushState := pushState st;
     selection := selection st; githubConnection := githubConnection st;
     githubConnectionInitialized := githubConnectionInitialized st;
     branchInput := branchInput st; commitMessage := commitMessage st |}.

Definition setSessionLoading (v : bool) (st : State) : State :=
  {| session := session st; sessionLoading := v;
     statusLoading := statusLoading st; pushState := pushState st;
     selection := selection st; githubConnection := githubConnection st;
     githubConnectionInitialized := githubConnectionInitialized st;
     branchInput := branchInput st; commitMessage := commitMessage st |}.

Definition setStatusLoading (v : bool) (st : State) : State :=
  {| session := session st; sessionLoading := sessionLoading st;
     statusLoading := v; pushState := pushState st;
     selection := selection st; githubConnection := githubConnection st;
     githubConnectionInitialized := githubConnectionInitialized st;
     branchInput := branchInput st; commitMessage := commitMessage st |}.

Definition setPushState (v : PushState) (st : State) : State :=
  {| session := session st; sessionLoading := sessionLoading st;
     statusLoading := statusLoading st; pushState := v;
     selection := selection st; githubConnection := githubConnection st;
     githubConnectionInitialized := githubConnectionInitialized st;
     branchInput := branchInput st; commitMessage := commitMessage st |}.

(** [setSelection(prev => ...)]; [setSelection(v)] is the constant
    updater. *)
Definition setSelection (f : option Selection -> option Selection)
    (st : State) : State :=
  {| session := session st; sessionLoading := sessionLoading st;
     statusLoading := statusLoading st; pushState := pushState st;
     selection := f (selection st); githubConnection := githubConnection st;
     githubConnectionInitialized := githubConnectionInitialized st;
     branchInput := branchInput st; commitMessage := commitMessage st |}.

Definition setGithubConnection (v : GitHubConnection) (st : State) : State :=
  {| session := session st; sessionLoading := sessionLoading st;
     statusLoading := statusLoading st; pushState := pushState st;
     selection := selection st; githubConnection := v;
     githubConnectionInitialized := githubConnectionInitialized st;
     branchInput := branchInput st; commitMessage := commitMessage st |}.

Definition setGithubConnectionInitialized (v : bool) (st : State) : State :=
  {| session := session st; sessionLoading := sessionLoading st;
     statusLoading := statusLoading st; pushState := pushState st;
     selection := selection st; githubConnection := githubConnection st;
     githubConnectionInitialized := v;
     branchInput := branchInput st; commitMessage := commitMessage st |}.

Definition setBranchInput (v : string) (st : State) : State :=
  {| session := session st; sessionLoading := sessionLoading st;
     statusLoading := statusLoading st; pushState := pushState st;
     selection := selection st; githubConnection := githubConnection st;
     githubConnectionInitialized := githubConnectionInitialized st;
     branchInput := v; commitMessage := commitMessage st |}.

Definition setCommitMessage (v : string) (st : State) : State :=
  {| session := session st; sessionLoading := sessionLoading st;
     statusLoading := statusLoading st; pushState := pushState st;
     selection := selection st; githubConnection := githubConnection st;
     githubConnectionInitialized := githubConnectionInitialized st;
     branchInput := branchInput st; commitMessage := v |}.

(** *** Values derived on every render *)

Definition selectedOwner (st : State) : string :=
  match selection st with Some s => owner s | None => EmptyString end.

Definition selectedRepo (st : State) : string :=
  match selection st with Some s => repo s | None => EmptyString end.

Definition selectedBranch (st : State) : string :=
  match selection st with Some s => branch s | None => "main" end.

Definition selectedFullName (st : State) : option string :=
  match selection st with
  | Some s =>
      if truthy_string (owner s) && truthy_string (repo s)
      then Some (owner s ++ "/" ++ repo s)%string
      else None
  | None => None
  end.

Definition disconnected : GitHubConnection :=
  {| conn_connected := false; conn_username := None;
     conn_connectedAt := None |}.

Definition idle_state : PushState := {| status := idle; message := None |}.

Definition default_commit_message : string :=
  "Sync from Shopify Data Generator".

(** The first render.  The atoms live in [@/lib/atoms], outside the two
    files: their initial values are parameters. *)
Definition mount (selection0 : option Selection)
    (connection0 : GitHubConnection) (initialized0 : bool) : State :=
  {| session := None; sessionLoading := true; statusLoading := true;
     pushState := idle_state;
     selection := selection0; githubConnection := connection0;
     githubConnectionInitialized := initialized0;
     branchInput := match selection0 with
                    | Some s => branch s
                    | None => "main"
                    end;
     commitMessage := default_commit_message |}.

(** *** Network answers *)

(** How [fetch(...)] followed by the [response.ok] test and
    [response.json()] can end. *)
Inductive fetched (A : Type) : Type :=
| FetchRejected (t : thrown)
| NotOk (code : Z)
| JsonRejected (t : thrown)
| JsonOk (data : A).
Arguments FetchRejected {A} t.
Arguments NotOk {A} code.
Arguments JsonRejected {A} t.
Arguments JsonOk {A} data.

Record SignOutData : Type := {
  url : option string
}.

(** The fields the component reads from the answer of
    [/api/github/push]. *)
Record PushData : Type := {
  d_error : option string;
  d_noChanges : option bool;
  d_branch : option string;
  d_commit : option string
}.

Definition empty_push_data : PushData :=
  {| d_error := None; d_noChanges := None;
     d_branch := None; d_commit := None |}.

(** [fetch] rejected, or answered with [response.ok] and a body whose
    [json()] may itself reject. *)
Inductive PushOutcome : Type :=
| PushRejected (t : thrown)
| PushAnswered (ok : bool) (data : option PushData).

Record PushBody : Type := {
  b_owner : string;
  b_repo : string;
  b_branch : string;
  b_commitMessage : string
}.

(** *** Callbacks and effects, one synchronous run each *)

(** [fetchSession] up to its [await]. *)
Definition fetchSession_start (st : State) : State :=
  setSessionLoading true st.

(** [fetchSession] from its [await] on. *)
Definition fetchSession_settle (r : fetched SessionInfo) (st : State)
    : State :=
  let st1 := match r with
             | JsonOk data => setSession (Some data) st
             | _ => setSession None st
             end in
  setSessionLoading false st1.

(** [fetchGitHubStatus] up to its [await]. *)
Definition fetchGitHubStatus_start (st : State) : State :=
  setStatusLoading true st.

(** [fetchGitHubStatus] from its [await] on, with the value it returns. *)
Definition fetchGitHubStatus_settle (r : fetched GitHubStatusResponse)
    (st : State) : State * GitHubStatusResponse :=
  let '(st1, result) :=
    match r with
    | JsonOk data =>
        let st' :=
          setGithubConnection
            {| conn_connected := connected data;
               conn_username := username data;
               conn_connectedAt :=
                 match connectedAt data with
                 | Some d => if truthy_string d then Some (NewDate d) else None
                 | None => None
                 end |} st in
        let st'' := if negb (connected data)
                    then setSelection (fun _ => None) st'
                    else st' in
        (st'', data)
    | _ =>
        (setSelection (fun _ => None) (setGithubConnection disconnected st),
         {| connected := false; username := None; connectedAt := None |})
    end in
  (setGithubConnectionInitialized true (setStatusLoading false st1), result).

Definition has_user (st : State) : bool :=
  match session st with
  | Some {| user := Some _ |} => true
  | _ => false
  end.

(** The effect on [session?.user], up to the [await] inside
    [loadStatus]. *)
Definition sessionEffect (st : State) : State :=
  if negb (has_user st) then
    setGithubConnectionInitialized true
      (setStatusLoading false
         (setSelection (fun _ => None)
            (setGithubConnection disconnected st)))
  else fetchGitHubStatus_start st.

(** [loadStatus] from its [await] on: the rest of [fetchGitHubStatus],
    then the continuation guarded by [isMounted]. *)
Definition loadStatus_settle (r : fetched GitHubStatusResponse)
    (isMounted : bool) (st : State) : State :=
  let '(st1, status) := fetchGitHubStatus_settle r st in
  if negb isMounted then st1
  else if negb (connected status) then setSelection (fun _ => None) st1
  else st1.

(** The effect on [selectedBranch]. *)
Definition branchEffect (st : State) : State :=
  setBranchInput (selectedBranch st) st.

Definition handleOwnerChange (owner' : string) (st : State) : State :=
  if negb (truthy_string owner') then setSelection (fun _ => None) st
  else
    setPushState idle_state
      (setSelection
         (fun prev =>
            Some {| owner := owner';
                    repo := EmptyString;
                    branch := match prev with
                              | Some p => branch p
                              | None => "main"
                              end |}) st).

Definition handleRepoChange (repo' : string) (st : State) : State :=
  if negb (truthy_string repo') then
    setSelection
      (fun prev =>
         match prev with
         | Some p => Some {| owner := owner p; repo := EmptyString;
                             branch := branch p |}
         | None => prev
         end) st
  else
    setPushState idle_state
      (setSelection
         (fun prev =>
            match prev with
            | Some p =>
                if negb (truthy_string (owner p)) then prev
                else Some {| owner := owner p; repo := repo';
                             branch := branch p |}
            | None => prev
            end) st).

(** [event.target.value] is the argument. *)
Definition handleBranchInputChange (input : string) (st : State) : State :=
  let value := if truthy_string input then input else "main" in
  setSelection
    (fun prev =>
       match prev with
       | Some p => Some {| owner := owner p; repo := repo p;
                           branch := value |}
       | None => prev
       end)
    (setPushState idle_state (setBranchInput value st)).

(** The [onChange] of the commit message input. *)
Definition handleCommitMessageChange (input : string) (st : State) : State :=
  setPushState idle_state (setCommitMessage input st).

(** [handleSignOut] from its [await]s on.  [handleSignIn] and
    [handleConnectGitHub] write no state and are left out. *)
Definition handleSignOut_settle (r : fetched SignOutData) (st : State)
    : State :=
  match r with
  | JsonOk _ =>
      setGithubConnection disconnected (setSelection (fun _ => None) st)
  | _ => st
  end.

Definition can_push (st : State) : bool :=
  match selection st with
  | Some s => truthy_string (owner s) && truthy_string (repo s)
  | None => false
  end.

(** The body [handlePushToGitHub] posts, when it posts one.  [trim] is
    [String.prototype.trim]. *)
Definition push_body (trim : string -> string) (st : State)
    : option PushBody :=
  match selection st with
  | Some s =>
      if truthy_string (owner s) && truthy_string (repo s) then
        Some {| b_owner := owner s;
                b_repo := repo s;
                b_branch := if truthy_string (branchInput st)
                            then branchInput st else "main";
                b_commitMessage :=
                  if truthy_string (trim (commitMessage st))
                  then trim (commitMessage st)
                  else default_commit_message |}
      else None
  | None => None
  end.

(** [handlePushToGitHub] up to its [await]. *)
Definition handlePushToGitHub_start (st : State) : State :=
  if can_push st then setPushState {| status := loading; message := None |} st
  else st.

Definition push_failure_message : string :=
  "Failed to push changes to GitHub".

Definition push_summary (data : PushData) : string :=
  let summaryParts :=
    (match d_branch data with
     | Some b => if truthy_string b then [("branch " ++ b)%string] else []
     | None => []
     end)
    ++ (match d_commit data with
        | Some c => if truthy_string c then [("commit " ++ c)%string] else []
        | None => []
        end) in
  match summaryParts with
  | [] => "Pushed changes to GitHub."
  | _ => ("Pushed to " ++ String.concat " • " summaryParts)%string
  end.

(** [handlePushToGitHub] from its [await]s on. *)
Definition handlePushToGitHub_settle (r : PushOutcome) (st : State)
    : State :=
  match r with
  | PushRejected t =>
      setPushState
        {| status := error;
           message := Some match t with
                           | JsError m => m
                           | NotAnError _ => push_failure_message
                           end |} st
  | PushAnswered ok parsed =>
      let data := match parsed with
                  | Some d => d
                  | None => empty_push_data
                  end in
      if negb ok then
        setPushState
          {| status := error;
             message := Some (or_else_string (d_error data)
                                             push_failure_message) |} st
      else if match d_noChanges data with Some b => b | None => false end
      then
        setPushState
          {| status := success;
             message :=
               Some "No changes detected – repository already up to date." |}
          st
      else
        setPushState
          {| status := success; message := Some (push_summary data) |} st
  end.

(** *** The component as a transition system *)

Inductive Event : Type :=
| SessionFetchStarted
| SessionFetchSettled (r : fetched SessionInfo)
| SessionEffect
| StatusSettled (r : fetched GitHubStatusResponse) (isMounted : bool)
| BranchEffect
| OwnerChange (value : string)
| RepoChange (value : string)
| BranchInputChange (value : string)
| CommitMessageChange (value : string)
| SignOutSettled (r : fetched SignOutData)
| PushClicked
| PushSettled (r : PushOutcome).

Definition step (st : State) (ev : Event) : State :=
  match ev with
  | SessionFetchStarted => fetchSession_start st
  | SessionFetchSettled r => fetchSession_settle r st
  | SessionEffect => sessionEffect st
  | StatusSettled r isMounted => loadStatus_settle r isMounted st
  | BranchEffect => branchEffect st
  | OwnerChange v => handleOwnerChange v st
  | RepoChange v => handleRepoChange v st
  | BranchInputChange v => handleBranchInputChange v st
  | CommitMessageChange v => handleCommitMessageChange v st
  | SignOutSettled r => handleSignOut_settle r st
  | PushClicked => handlePushToGitHub_start st
  | PushSettled r => handlePushToGitHub_settle r st
  end.

Definition run (st : State) (evs : list Event) : State :=
  fold_left step evs st.

(** States the component can be in after [st0]. *)
Inductive reachable (st0 : State) : State -> Prop :=
| reach_start : reachable st0 st0
| reach_step st ev : reachable st0 st -> reachable st0 (step st ev).

(** Events that disconnect GitHub: a status answer with
    [connected = false], a failed status fetch, the session effect without
    a user, and a completed sign-out. *)
Definition disconnects (st : State) (ev : Event) : bool :=
  match ev with
  | StatusSettled (JsonOk data) _ => negb (connected data)
  | StatusSettled _ _ => true
  | SessionEffect => negb (has_user st)
  | SignOutSettled (JsonOk _) => true
  | _ => false
  end.

(** Edits of one of the four fields of the header. *)
Definition is_field_edit (ev : Event) : bool :=
  match ev with
  | OwnerChange _ | RepoChange _ | BranchInputChange _
  | CommitMessageChange _ => true
  | _ => false
  end.

(** The edits after which [setPushState({ status: "idle" })] is reached:
    owner and repo edits return before it on an empty value. *)
Definition resets_push (ev : Event) : bool :=
  match ev with
  | OwnerChange v | RepoChange v => truthy_string v
  | BranchInputChange _ | CommitMessageChange _ => true
  | _ => false
  end.

(** A repo is only set under an owner. *)
Definition repo_has_owner (sel : option Selection) : Prop :=
  match sel with
  | Some s => repo s <> EmptyString -> owner s <> EmptyString
  | None => True
  end.

End AppHeader.

(** ** Shapes the properties below speak about *)

Module Expected.
Import Js Route.

(** The object a successful GET answers with. *)
Definition flattened (chat : SdkChat) (found : MessagesResponse) : json :=
  JObj [("chatId", JStr (c_id chat));
        ("webUrl", JStr (c_webUrl chat));
        ("apiUrl", JStr (c_apiUrl chat));
        ("shareable", JBool (c_shareable chat));
        ("privacy", JStr (c_privacy chat));
        ("messages",
         JArr (map (fun m => JObj [("id", JStr (m_id m));
                                   ("role", JStr (m_role m));
                                   ("content", JStr (m_content m));
                                   ("createdAt", JStr (m_createdAt m))])
                   (match r_data found with
                    | Some data => data
                    | None => []
                    end)))].

(** [!process.env.V0_API_KEY]. *)
Definition key_missing (env : Env) : bool :=
  match V0_API_KEY env with
  | Some apiKey => negb (truthy_string apiKey)
  | None => true
  end.

(** The answer to a request handled without [V0_API_KEY]. *)
Definition missing_key_response : Response :=
  {| status := 500; body := JObj [("error", JStr missing_key_message)] |}.

End Expected.

(** ** Concrete requests, environments and services used in examples *)

Module Samples.
Import Js Route.

Definition configured : Env := {| V0_API_KEY := Some "sk-test" |}.
Definition unconfigured : Env := {| V0_API_KEY := None |}.

Definition chat_1 : SdkChat :=
  {| c_id := "chat_1"; c_webUrl := "https://v0.app/chat/chat_1";
     c_apiUrl := "https://api.v0.dev/v1/chats/chat_1";
     c_shareable := true; c_privacy := "private";
     c_latestVersion :=
       Some {| v_content := Some "export default function Page() {}";
               v_files := Some [{| f_name := "page.tsx";
                                   f_content := "export default 1";
                                   f_rest := [("locked", JBool false)] |}];
               v_rest := [("status", JStr "completed")] |};
     c_rest := [("object", JStr "chat")] |}.

Definition message_1 : SdkMessage :=
  {| m_id := "msg_1"; m_role := "user"; m_content := "Hello!";
     m_createdAt := "2025-01-01T00:00:00.000Z";
     m_rest := [("object", JStr "message"); ("type", JStr "message")] |}.

(** A service on which every call succeeds. *)
Definition friendly : SdkModule := fun _ =>
  {| chats_getById := fun _ _ => Fulfilled chat_1;
     chats_findMessages := fun _ _ _ =>
       Fulfilled {| r_data := Some [message_1] |};
     chats_create := fun _ _ _ _ => Fulfilled (AChat chat_1);
     chats_sendMessage := fun _ _ _ _ => Fulfilled (AChat chat_1) |}.

(** A service that answers every creation and every message with a
    stream. *)
Definition streaming : SdkModule := fun _ =>
  {| chats_getById := fun _ _ => Fulfilled chat_1;
     chats_findMessages := fun _ _ _ => Fulfilled {| r_data := None |};
     chats_create := fun _ _ _ _ => Fulfilled AStream;
     chats_sendMessage := fun _ _ _ _ => Fulfilled AStream |}.

(** A service that refuses the key it is given. *)
Definition refusing : SdkModule := fun _ =>
  {| chats_getById := fun _ _ => Rejected (JsError "Invalid V0_API_KEY");
     chats_findMessages := fun _ _ _ =>
       Rejected (JsError "Invalid V0_API_KEY");
     chats_create := fun _ _ _ _ => Rejected (JsError "Invalid V0_API_KEY");
     chats_sendMessage := fun _ _ _ _ =>
       Rejected (JsError "Invalid V0_API_KEY") |}.

(** A service that rejects with an [Error] that has no message. *)
Definition messageless : SdkModule := fun _ =>
  {| chats_getById := fun _ _ => Rejected (OddError None);
     chats_findMessages := fun _ _ _ => Rejected (OddError None);
     chats_create := fun _ _ _ _ => Rejected (OddError None);
     chats_sendMessage := fun _ _ _ _ => Rejected (OddError None) |}.

Definition get_request (query : list (string * string)) : Request :=
  {| searchParams := query; json_body := Rejected (JsError "no body") |}.

Definition post_request (b : json) : Request :=
  {| searchParams := []; json_body := Fulfilled b |}.

End Samples.

(** ** Concrete header states used in examples *)

Module HeaderSamples.
Import Js AppHeader.

(** The header right after mounting, with nothing selected. *)
Definition fresh : State := mount None disconnected false.

(** A signed-in, connected header with a repository selected and a push
    that has just succeeded. *)
Definition pushed : State :=
  {| session :=
       Some {| user := Some {| user_id := "1"; user_username := "octo";
                               user_email := None; user_name := None;
                               user_avatar := None |};
               authProvider := Some vercel |};
     sessionLoading := false; statusLoading := false;
     pushState := {| status := success;
                     message := Some "Pushed changes to GitHub." |};
     selection := Some {| owner := "octo"; repo := "shop";
                          branch := "main" |};
     githubConnection := {| conn_connected := true;
                            conn_username := Some "octo";
                            conn_connectedAt := None |};
     githubConnectionInitialized := true;
     branchInput := "main";
     commitMessage := default_commit_message |}.

End HeaderSamples.

(** ** Further shapes of the route's answers *)

Module Shapes.
Import Js Route.

(** [latestVersion?.content] and [latestVersion?.files] of a chat as the SDK
    returns it. *)
Definition latest_content (chat : SdkChat) : option string :=
  match c_latestVersion chat with
  | Some v => v_content v
  | None => None
  end.

Definition latest_files (chat : SdkChat) : list SdkFile :=
  match c_latestVersion chat with
  | Some v => match v_files v with Some fs => fs | None => [] end
  | None => []
  end.

(** The object a successful [create] answers with, read off the chat that
    was fetched again. *)
Definition created (refreshed : SdkChat) : json :=
  JObj [("chatId", JStr (c_id refreshed));
        ("webUrl", JStr (c_webUrl refreshed));
        ("apiUrl", JStr (c_apiUrl refreshed));
        ("shareable", JBool (c_shareable refreshed));
        ("privacy", JStr (c_privacy refreshed));
        ("message", JStr "Chat created successfully");
        ("response",
         JStr (or_else_string (latest_content refreshed)
                              "Chat created successfully"));
        ("files",
         JArr (map (fun f => JObj [("name", JStr (f_name f));
                                   ("content", JStr (f_content f))])
                   (latest_files refreshed)))].

(** The object a successful [send] answers with. *)
Definition sent (chat : SdkChat) : json :=
  JObj [("success", JBool true);
        ("response",
         JStr (or_else_string (latest_content chat)
                              "Message sent successfully"));
        ("files", JArr (map sdk_file_json (latest_files chat)))].

(** The values on which [message.includes] can be called: strings and
    arrays. *)
Definition has_includes (message : option json) : bool :=
  match message with
  | Some (JStr _) | Some (JArr _) => true
  | _ => false
  end.

(** An answer is either a 200 with an object that has no [error] field, or
    a 400 or 500 with an object that has the [error] field only; the error
    is a string, which mentions "V0_API_KEY" when the status is 500, or the
    array that an [Error] carried as its message. *)
Definition well_formed (r : Response) : Prop :=
  (status r = 200
   /\ prop (body r) "error" = None
   /\ exists props, body r = JObj props)
  \/ ((status r = 400 \/ status r = 500)
      /\ ((exists m, body r = JObj [("error", JStr m)]
                     /\ (status r = 500 -> includes m "V0_API_KEY" = true))
          \/ exists items, body r = JObj [("error", JArr items)])).

(** How a handler may end: with a well-formed answer, or with an exception
    after an SDK call was rejected with an [Error] whose message is neither
    a string nor an array. *)
Definition answers_or_escapes (r : Outcome * Log) : Prop :=
  match fst r with
  | Answered response => well_formed response
  | Escaped _ =>
      exists call message,
        In (Sdk call (Threw (OddError message))) (snd r)
        /\ has_includes message = false
  end.

(** The [console.error] lines of a log. *)
Definition console_lines (log : Log) : list (string * raised) :=
  flat_map (fun e => match e with
                     | Sdk _ _ => []
                     | ConsoleError label t => [(label, t)]
                     end) log.

End Shapes.

(** ** What the header renders *)

Module AppHeaderView.
Import Js AppHeader.

(** The [RepoSelector] is rendered: a user is signed in, the status is not
    loading and GitHub is connected. *)
Definition shows_repo_selector (st : State) : bool :=
  has_user st && negb (statusLoading st)
  && conn_connected (githubConnection st).

(** The commit message, the branch input and the push button are rendered:
    as above, with an owner and a repo selected. *)
Definition shows_push_panel (st : State) : bool :=
  has_user st && negb (statusLoading st)
  && (conn_connected (githubConnection st) && can_push st).

(** The line under the push panel is rendered. *)
Definition shows_push_message (st : State) : bool :=
  shows_push_panel st
  && match status (pushState st) with idle => false | _ => true end
  && match message (pushState st) with
     | Some m => truthy_string m
     | None => false
     end.

(** Events the rendered header can produce in a state: an owner or repo
    change needs the selector, the three controls of the push panel need the
    panel; answers of the network and effects are not tied to what is
    rendered. *)
Definition offered (st : State) (ev : Event) : bool :=
  match ev with
  | OwnerChange _ | RepoChange _ => shows_repo_selector st
  | BranchInputChange _ | CommitMessageChange _ | PushClicked =>
      shows_push_panel st
  | _ => true
  end.

(** States reached through offered events only. *)
Inductive offered_reachable (st0 : State) : State -> Prop :=
| offered_start : offered_reachable st0 st0
| offered_step st ev :
    offered_reachable st0 st -> offered st ev = true ->
    offered_reachable st0 (step st ev).

End AppHeaderView.

(** ** Properties of the chat proxy route *)

Section RouteProperties.
Import Js Route Expected Shapes.

Lemma truthy_string_true (s : string) :
  truthy_string s = true <-> s <> EmptyString.
Proof.
  unfold truthy_string. destruct (String.eqb_spec s EmptyString); simpl; split;
    congruence.
Qed.

Lemma truthy_string_false (s : string) :
  truthy_string s = false <-> s = EmptyString.
Proof.
  unfold truthy_string. destruct (String.eqb_spec s EmptyString); simpl; split;
    congruence.
Qed.

Lemma missing_key_is_configuration_error :
  error_status missing_key_message = 500.
Proof. reflexivity. Qed.



(** Examples: the handlers on concrete requests. *)
Example GET_chat_1 :
  GET Samples.configured Samples.friendly
      (Samples.get_request [("chatId", "chat_1")])
  = (Answered {| status := 200;
                 body := JObj [("chatId", JStr "chat_1");
                               ("webUrl", JStr "https://v0.app/chat/chat_1");
                               ("apiUrl", JStr "https://api.v0.dev/v1/chats/chat_1");
                               ("shareable", JBool true);
                               ("privacy", JStr "private");
                               ("messages",
                                JArr [JObj [("id", JStr "msg_1");
                                            ("role", JStr "user");
                                            ("content", JStr "Hello!");
                                            ("createdAt",
                                             JStr "2025-01-01T00:00:00.000Z")]])] |},
     [Sdk (GetById "chat_1") (GotChat Samples.chat_1);
      Sdk (FindMessages "chat_1" 50)
          (GotMessages {| r_data := Some [Samples.message_1] |})]).
Proof. reflexivity. Qed.

Example POST_invalid_action :
  fst (POST Samples.configured Samples.friendly
            (Samples.post_request (JObj [("action", JStr "delete")])))
  = Answered {| status := 400;
                body := JObj [("error", JStr invalid_action_message)] |}.
Proof. reflexivity. Qed.

Example POST_null_body :
  fst (POST Samples.configured Samples.friendly
            (Samples.post_request JNull))
  = Answered {| status := 400;
                body := JObj [("error", JStr destructure_null_message)] |}.
Proof. reflexivity. Qed.

(** C4. A GET request without a [chatId] query parameter is answered with
    status 400 and a JSON [{error}] body, and nothing is asked of the SDK:
    the handler's log is empty. *)
Theorem GET_without_chatId (env : Env) (sdk : SdkModule) (request : Request) :
  searchParams_get request "chatId" = None ->
  GET env sdk request
  = (Answered {| status := 400;
                 body := JObj [("error", JStr "chatId query parameter is required")] |},
     []).
Proof.
  intros H. unfold GET, handle, GET_try. rewrite H. reflexivity.
Qed.

Lemma GET_without_chatId_witness :
  searchParams_get (Samples.get_request [("id", "chat_1")]) "chatId" = None
  /\ GET Samples.configured Samples.friendly
         (Samples.get_request [("id", "chat_1")])
     = (Answered {| status := 400;
                    body := JObj [("error",
                                   JStr "chatId query parameter is required")] |},
        []).
Proof.
  split; [reflexivity | apply GET_without_chatId; reflexivity].
Defined.

(** C1, as stated, fails on a request whose [chatId] parameter is present
    and empty: every SDK call would succeed, yet the handler answers 400
    with an [{error}] object and calls nothing. *)
Lemma GET_empty_chatId_refused :
  searchParams_get (Samples.get_request [("chatId", EmptyString)]) "chatId"
  = Some EmptyString
  /\ (forall key log c,
        chats_getById (Samples.friendly key) log c
        = Fulfilled Samples.chat_1)
  /\ (forall key log c n,
        chats_findMessages (Samples.friendly key) log c n
        = Fulfilled {| r_data := Some [Samples.message_1] |})
  /\ GET Samples.configured Samples.friendly
         (Samples.get_request [("chatId", EmptyString)])
     = (Answered {| status := 400;
                    body := JObj [("error",
                                   JStr "chatId query parameter is required")] |},
        [])
  /\ match fst (GET Samples.configured Samples.friendly
                    (Samples.get_request [("chatId", EmptyString)])) with
     | Answered response => keys (body response)
     | Escaped _ => []
     end
     <> ["chatId"; "webUrl"; "apiUrl"; "shareable"; "privacy"; "messages"].
Proof.
  repeat split; try reflexivity. vm_compute. discriminate.
Qed.

(** C1 (amended). A GET request with a non-empty [chatId], handled with
    [V0_API_KEY] configured and with both SDK calls succeeding, is answered
    with status 200 and the flattened object: exactly the fields chatId,
    webUrl, apiUrl, shareable, privacy and messages, where messages are
    those [findMessages] returned for limit 50, each projected to id,
    role, content and createdAt, and the empty array when the SDK
    returned no data.  The two SDK calls are the only ones made. *)
Theorem GET_returns_flattened_chat
    (env : Env) (sdk : SdkModule) (request : Request)
    (chatId apiKey : string) (chat : SdkChat) (found : MessagesResponse) :
  searchParams_get request "chatId" = Some chatId ->
  chatId <> EmptyString ->
  V0_API_KEY env = Some apiKey ->
  apiKey <> EmptyString ->
  chats_getById (sdk apiKey) [] chatId = Fulfilled chat ->
  chats_findMessages (sdk apiKey) [Sdk (GetById chatId) (GotChat chat)]
                     chatId 50 = Fulfilled found ->
  GET env sdk request
  = (Answered {| status := 200; body := flattened chat found |},
     [Sdk (GetById chatId) (GotChat chat);
      Sdk (FindMessages chatId 50) (GotMessages found)])
  /\ keys (flattened chat found)
     = ["chatId"; "webUrl"; "apiUrl"; "shareable"; "privacy"; "messages"]
  /\ (r_data found = None ->
      prop (flattened chat found) "messages" = Some (JArr [])).
Proof.
  intros Hq Hne Hk Hkne Hchat Hfound.
  apply truthy_string_true in Hne. apply truthy_string_true in Hkne.
  split; [| split].
  - unfold GET, handle, GET_try. rewrite Hq, Hne. simpl.
    unfold fetchChatDetail, bind, getV0Client. rewrite Hk, Hkne.
    unfold ret, getById, await. rewrite Hchat. simpl.
    unfold findMessages, await. rewrite Hfound. simpl.
    unfold flattened, json_response.
    destruct found as [[data|]]; simpl; [rewrite map_map |]; reflexivity.
  - reflexivity.
  - intros Hnone. unfold flattened. rewrite Hnone. reflexivity.
Qed.

Lemma GET_returns_flattened_chat_witness :
  GET Samples.configured Samples.friendly
      (Samples.get_request [("chatId", "chat_1")])
  = (Answered {| status := 200;
                 body := flattened Samples.chat_1
                                   {| r_data := Some [Samples.message_1] |} |},
     [Sdk (GetById "chat_1") (GotChat Samples.chat_1);
      Sdk (FindMessages "chat_1" 50)
          (GotMessages {| r_data := Some [Samples.message_1] |})]).
Proof.
  apply (GET_returns_flattened_chat Samples.configured Samples.friendly
           (Samples.get_request [("chatId", "chat_1")])
           "chat_1" "sk-test" Samples.chat_1
           {| r_data := Some [Samples.message_1] |});
    try reflexivity; discriminate.
Defined.

Lemma getV0Client_missing (env : Env) (sdk : SdkModule) (log : Log) :
  key_missing env = true ->
  getV0Client env sdk log = (log, Throw (JsError missing_key_message)).
Proof.
  unfold key_missing, getV0Client.
  destruct (V0_API_KEY env) as [k|]; [destruct (truthy_string k) |];
    simpl; intros; try discriminate; reflexivity.
Qed.

Lemma getV0Client_configured (env : Env) (sdk : SdkModule) (log : Log) :
  key_missing env = false ->
  exists apiKey,
    V0_API_KEY env = Some apiKey /\ apiKey <> EmptyString
    /\ getV0Client env sdk log = (log, Normal (sdk apiKey)).
Proof.
  unfold key_missing, getV0Client.
  destruct (V0_API_KEY env) as [k|]; [| discriminate].
  destruct (truthy_string k) eqn:E; simpl; intros; try discriminate.
  exists k. apply truthy_string_true in E. auto.
Qed.

Lemma action_is (b : json) (lit : string) :
  strict_eq_string (prop b "action") lit = true ->
  prop b "action" = Some (JStr lit) /\ exists props, b = JObj props.
Proof.
  destruct b; simpl; try discriminate.
  destruct (assoc "action" props) as [[| | |s| |]|]; simpl; try discriminate.
  intros H. apply String.eqb_eq in H. subst. eauto.
Qed.

(** C3, as stated, fails when [V0_API_KEY] is not configured: the client
    is built before the action is looked at, so a [send] without chatId
    and message is answered with status 500. *)
Lemma POST_send_unconfigured_is_500 :
  POST Samples.unconfigured Samples.friendly
       (Samples.post_request (JObj [("action", JStr "send")]))
  = (Answered {| status := 500; body := JObj [("error", JStr missing_key_message)] |},
     [ConsoleError "V0 Chat API Error:" (JsError missing_key_message)]).
Proof. reflexivity. Qed.

(** C3 (amended). A POST request with action "send" whose chatId or
    message is absent or falsy (empty included) is answered, when
    [V0_API_KEY] is configured, with status 400 and the JSON [{error}]
    body, the handler's log staying empty.  Whether or not the key is
    configured, the answer is a one-field [{error}] object and no SDK
    operation, [sendMessage] included, is invoked. *)
Theorem POST_send_requires_chatId_and_message
    (env : Env) (sdk : SdkModule) (request : Request) (b : json) :
  json_body request = Fulfilled b ->
  strict_eq_string (prop b "action") "send" = true ->
  truthy_opt (prop b "chatId") = false
  \/ truthy_opt (prop b "message") = false ->
  (key_missing env = false ->
   POST env sdk request
   = (Answered {| status := 400;
                  body := JObj [("error",
                                 JStr "chatId and message are required for send action")] |},
      []))
  /\ sdk_calls (snd (POST env sdk request)) = []
  /\ (exists response,
        fst (POST env sdk request) = Answered response
        /\ keys (body response) = ["error"]).
Proof.
  intros Hb Ha Hf.
  destruct (action_is _ _ Ha) as [Ea [props ->]].
  assert (Hsend :
    key_missing env = false ->
    POST env sdk request = (Answered send_required_response, [])).
  { intros Hk.
    destruct (getV0Client_configured env sdk [] Hk) as (k & _ & _ & Hc).
    unfold POST, handle, POST_try, bind, request_json. rewrite Hb.
    cbv beta iota zeta delta [ret]. rewrite Hc, Ea.
    cbv beta iota zeta delta [strict_eq_string]. simpl String.eqb.
    cbv beta iota.
    destruct (prop (JObj props) "chatId") as [c|];
      destruct (prop (JObj props) "message") as [m|]; simpl in Hf;
      try reflexivity.
    destruct Hf as [Hf | Hf]; rewrite Hf; simpl; try reflexivity.
    rewrite orb_true_r. reflexivity. }
  destruct (key_missing env) eqn:Hk.
  - split; [discriminate |].
    unfold POST, handle, POST_try, bind, request_json. rewrite Hb.
    cbv beta iota zeta delta [ret].
    rewrite (getV0Client_missing env sdk [] Hk).
    split; [reflexivity | eexists; split; reflexivity].
  - rewrite (Hsend eq_refl).
    split; [reflexivity |]. split; [reflexivity |].
    eexists; split; reflexivity.
Qed.

Lemma POST_send_requires_chatId_and_message_witness :
  POST Samples.configured Samples.friendly
       (Samples.post_request
          (JObj [("action", JStr "send"); ("chatId", JStr "chat_1");
                 ("message", JStr EmptyString)]))
  = (Answered {| status := 400;
                 body := JObj [("error",
                                JStr "chatId and message are required for send action")] |},
     []).
Proof.
  apply (POST_send_requires_chatId_and_message
           Samples.configured Samples.friendly
           (Samples.post_request
              (JObj [("action", JStr "send"); ("chatId", JStr "chat_1");
                     ("message", JStr EmptyString)]))
           (JObj [("action", JStr "send"); ("chatId", JStr "chat_1");
                  ("message", JStr EmptyString)]));
    [reflexivity | reflexivity | right; reflexivity | reflexivity].
Defined.

(** Unfold a handler down to the answers of the outside world, then
    split on each of them. *)
Ltac run_handler :=
  cbv beta iota zeta
      delta [POST GET handle catch_clause caught_message
             POST_try GET_try bind ret throw await
             request_json getV0Client fetchChatDetail getById findMessages
             create sendMessage wants_messages includeMessages
             seen_chat_or_stream fst snd] in *.

Ltac split_handler :=
  repeat (run_handler;
          match goal with
          | H : context [match ?x with _ => _ end] |- _ =>
              lazymatch x with
              | context [match _ with _ => _ end] => fail
              | _ => destruct x eqn:?
              end
          end);
  run_handler.

Ltac search_log H :=
  simpl in H;
  repeat (destruct H as [H | H]; try discriminate H);
  try contradiction.




Lemma getV0Client_with_key (env : Env) (sdk : SdkModule) (log : Log)
    (apiKey : string) :
  V0_API_KEY env = Some apiKey ->
  apiKey <> EmptyString ->
  getV0Client env sdk log = (log, Normal (sdk apiKey)).
Proof.
  intros Hk Hne. apply truthy_string_true in Hne.
  unfold getV0Client. rewrite Hk, Hne. reflexivity.
Qed.

(** C5. Whenever the SDK answers a POST request's [create] or
    [sendMessage] call with a stream, the handler answers with status 400
    and a JSON [{error}] body saying that streaming responses are not
    supported.  This is stated once on the record of the calls the handler
    made, and once for each action on the answers of the service. *)
Theorem POST_stream_rejected
    (env : Env) (sdk : SdkModule) (request : Request) :
  (forall call,
      In (Sdk call GotStream) (snd (POST env sdk request)) ->
      exists response,
        fst (POST env sdk request) = Answered response
        /\ status response = 400
        /\ ((exists message system,
                call = Create message system "sync"
                /\ body response
                   = JObj [("error",
                            JStr "Streaming response not supported. Please use standard chat creation.")])
            \/ (exists chatId message,
                   call = SendMessage chatId message "sync"
                   /\ body response
                      = JObj [("error",
                               JStr "Streaming response not supported. Please use standard message sending.")])))
  /\ (forall b apiKey,
      json_body request = Fulfilled b ->
      strict_eq_string (prop b "action") "create" = true ->
      V0_API_KEY env = Some apiKey ->
      apiKey <> EmptyString ->
      chats_create (sdk apiKey) []
                   (or_else (prop b "message") (JStr "Hello!"))
                   (or_else (prop b "system")
                            (JStr "You are a helpful coding assistant."))
                   "sync"
      = Fulfilled AStream ->
      POST env sdk request
      = (Answered {| status := 400;
                     body := JObj [("error",
                                    JStr "Streaming response not supported. Please use standard chat creation.")] |},
         [Sdk (Create (or_else (prop b "message") (JStr "Hello!"))
                      (or_else (prop b "system")
                               (JStr "You are a helpful coding assistant."))
                      "sync")
              GotStream]))
  /\ (forall b apiKey chatId message,
      json_body request = Fulfilled b ->
      strict_eq_string (prop b "action") "send" = true ->
      prop b "chatId" = Some chatId ->
      prop b "message" = Some message ->
      truthy chatId = true ->
      truthy message = true ->
      V0_API_KEY env = Some apiKey ->
      apiKey <> EmptyString ->
      chats_sendMessage (sdk apiKey) [] chatId message "sync"
      = Fulfilled AStream ->
      POST env sdk request
      = (Answered {| status := 400;
                     body := JObj [("error",
                                    JStr "Streaming response not supported. Please use standard message sending.")] |},
         [Sdk (SendMessage chatId message "sync") GotStream])).
Proof.
  split; [| split].
  - intros call H. split_handler; search_log H.
    all: inversion H; subst; eexists; split; [reflexivity |];
      split; [reflexivity |].
    all: first [ left; do 2 eexists; split; reflexivity
               | right; do 2 eexists; split; reflexivity ].
  - intros b apiKey Hb Ha Hk Hne Hstream.
    destruct (action_is _ _ Ha) as [_ [props ->]].
    unfold POST, handle, POST_try, bind, request_json. rewrite Hb.
    cbv beta iota zeta delta [ret].
    rewrite (getV0Client_with_key env sdk [] apiKey Hk Hne), Ha.
    unfold create, await. cbv beta iota.
    change create_default_message with "Hello!".
    change create_default_system with "You are a helpful coding assistant.".
    rewrite Hstream. reflexivity.
  - intros b apiKey chatId message Hb Ha Hc Hm Htc Htm Hk Hne Hstream.
    destruct (action_is _ _ Ha) as [Ea [props ->]].
    unfold POST, handle, POST_try, bind, request_json. rewrite Hb.
    cbv beta iota zeta delta [ret].
    rewrite (getV0Client_with_key env sdk [] apiKey Hk Hne), Ea, Hc, Hm.
    cbv beta iota zeta delta [strict_eq_string].
    change (String.eqb "send" "create") with false.
    change (String.eqb "send" "send") with true.
    cbv beta iota. rewrite Htc, Htm. cbn [negb orb].
    unfold sendMessage, await. rewrite Hstream. reflexivity.
Qed.

Lemma POST_stream_rejected_witness :
  In (Sdk (Create (JStr "Hello!")
                  (JStr "You are a helpful coding assistant.") "sync")
          GotStream)
     (snd (POST Samples.configured Samples.streaming
                (Samples.post_request (JObj [("action", JStr "create")]))))
  /\ (exists response,
        fst (POST Samples.configured Samples.streaming
                  (Samples.post_request (JObj [("action", JStr "create")])))
        = Answered response
        /\ status response = 400)
  /\ POST Samples.configured Samples.streaming
          (Samples.post_request
             (JObj [("action", JStr "send"); ("chatId", JStr "chat_1");
                    ("message", JStr "Add a footer")]))
     = (Answered {| status := 400;
                    body := JObj [("error",
                                   JStr "Streaming response not supported. Please use standard message sending.")] |},
        [Sdk (SendMessage (JStr "chat_1") (JStr "Add a footer") "sync")
             GotStream]).
Proof.
  split; [simpl; left; reflexivity |]. split.
  - destruct (proj1 (POST_stream_rejected
                        Samples.configured Samples.streaming
                        (Samples.post_request
                           (JObj [("action", JStr "create")])))
                     (Create (JStr "Hello!")
                             (JStr "You are a helpful coding assistant.")
                             "sync"))
      as (response & Hanswer & Hstatus & _).
    + simpl. left. reflexivity.
    + exists response. split; assumption.
  - apply (proj2 (proj2
             (POST_stream_rejected Samples.configured Samples.streaming
                (Samples.post_request
                   (JObj [("action", JStr "send"); ("chatId", JStr "chat_1");
                          ("message", JStr "Add a footer")]))))
             (JObj [("action", JStr "send"); ("chatId", JStr "chat_1");
                    ("message", JStr "Add a footer")])
             "sk-test" (JStr "chat_1") (JStr "Add a footer"));
      try reflexivity; discriminate.
Defined.



(** ** Further properties of the route *)





(** X2. A POST whose action is neither "create" nor "send" (a missing
    action included) is answered, with [V0_API_KEY] configured, with status
    400 and the invalid-action error; with or without the key nothing is
    asked of the SDK. *)
Theorem POST_other_action_rejected
    (env : Env) (sdk : SdkModule) (request : Request) (b : json) :
  json_body request = Fulfilled b ->
  b <> JNull ->
  strict_eq_string (prop b "action") "create" = false ->
  strict_eq_string (prop b "action") "send" = false ->
  (key_missing env = false ->
   POST env sdk request
   = (Answered {| status := 400;
                  body := JObj [("error", JStr invalid_action_message)] |}, []))
  /\ (key_missing env = true ->
      POST env sdk request
      = (Answered missing_key_response,
         [ConsoleError "V0 Chat API Error:" (JsError missing_key_message)]))
  /\ sdk_calls (snd (POST env sdk request)) = [].
Proof.
  intros Hb Hnull Hc Hs.
  assert (Hrun :
    POST env sdk request
    = if key_missing env
      then (Answered missing_key_response,
            [ConsoleError "V0 Chat API Error:" (JsError missing_key_message)])
      else (Answered {| status := 400;
                        body := JObj [("error", JStr invalid_action_message)] |}, [])).
  { unfold POST, handle, POST_try, bind, request_json. rewrite Hb.
    cbv beta iota zeta delta [ret].
    destruct (key_missing env) eqn:Hk.
    - destruct b; try contradiction;
        rewrite (getV0Client_missing env sdk [] Hk); reflexivity.
    - destruct (getV0Client_configured env sdk [] Hk) as (k & _ & _ & Hcl).
      destruct b; try contradiction; rewrite Hcl, Hc, Hs; reflexivity. }
  rewrite Hrun. destruct (key_missing env); repeat split;
    intros; try discriminate; reflexivity.
Qed.

Lemma POST_other_action_rejected_witness :
  POST Samples.configured Samples.friendly
       (Samples.post_request (JObj [("message", JStr "hi")]))
  = (Answered {| status := 400;
                 body := JObj [("error", JStr invalid_action_message)] |}, []).
Proof.
  apply (proj1 (POST_other_action_rejected Samples.configured Samples.friendly
                  (Samples.post_request (JObj [("message", JStr "hi")]))
                  (JObj [("message", JStr "hi")])
                  eq_refl ltac:(discriminate) eq_refl eq_refl)).
  reflexivity.
Defined.

(** X3. A POST whose body cannot be read ([request.json()] rejects) or whose
    body is [null] is answered from the [catch] clause before the key or the
    SDK is looked at: the error is the rejection's message (the fixed text
    for a value that is not an [Error]), nothing is asked of the SDK, and
    the answer is the same with and without [V0_API_KEY]. *)
Theorem POST_unreadable_body
    (env : Env) (sdk : SdkModule) (request : Request) :
  (forall t,
      json_body request = Rejected t ->
      POST env sdk request
      = (Answered {| status := error_status
                                 (error_message t "Failed to process chat request");
                     body := JObj [("error",
                                    JStr (error_message
                                            t "Failed to process chat request"))] |},
         [ConsoleError "V0 Chat API Error:" t]))
  /\ (forall v,
      json_body request = Rejected (NotAnError v) ->
      fst (POST env sdk request)
      = Answered
          {| status := 400;
             body := JObj [("error",
                            JStr "Failed to process chat request")] |})
  /\ (json_body request = Fulfilled JNull ->
      POST env sdk request
      = (Answered {| status := 400;
                     body := JObj [("error", JStr destructure_null_message)] |},
         [ConsoleError "V0 Chat API Error:"
                       (JsError destructure_null_message)])).
Proof.
  repeat split; intros;
    unfold POST, handle, POST_try, bind, request_json; rewrite H; reflexivity.
Qed.

Lemma POST_unreadable_body_witness :
  POST Samples.unconfigured Samples.friendly
       (Samples.get_request [])
  = (Answered {| status := 400; body := JObj [("error", JStr "no body")] |},
     [ConsoleError "V0 Chat API Error:" (JsError "no body")]).
Proof.
  apply (proj1 (POST_unreadable_body Samples.unconfigured Samples.friendly
                  (Samples.get_request [])) (JsError "no body")).
  reflexivity.
Defined.

(** X4. A successful [create]: with [V0_API_KEY] configured, when the SDK
    answers the creation with a chat and the lookup of that chat's id with a
    chat, the handler answers 200 with the fields of the chat it looked up
    (not of the one [create] returned), the response text being the latest
    version's content or 'Chat created successfully', and the files cut
    down to name and content.  It makes exactly these two SDK calls and
    does not fetch messages. *)
Theorem POST_create_answers_refreshed_chat
    (env : Env) (sdk : SdkModule) (request : Request) (b : json)
    (apiKey : string) (fresh refreshed : SdkChat) :
  json_body request = Fulfilled b ->
  strict_eq_string (prop b "action") "create" = true ->
  V0_API_KEY env = Some apiKey ->
  apiKey <> EmptyString ->
  let message := or_else (prop b "message") (JStr "Hello!") in
  let system := or_else (prop b "system")
                        (JStr "You are a helpful coding assistant.") in
  chats_create (sdk apiKey) [] message system "sync"
  = Fulfilled (AChat fresh) ->
  chats_getById (sdk apiKey)
                [Sdk (Create message system "sync") (GotChat fresh)]
                (c_id fresh)
  = Fulfilled refreshed ->
  POST env sdk request
  = (Answered {| status := 200; body := created refreshed |},
     [Sdk (Create message system "sync") (GotChat fresh);
      Sdk (GetById (c_id fresh)) (GotChat refreshed)]).
Proof.
  intros Hb Ha Hk Hne message system Hcreate Hget.
  destruct (action_is _ _ Ha) as [_ [props ->]].
  unfold POST, handle, POST_try, bind, request_json. rewrite Hb.
  cbv beta iota zeta delta [ret].
  rewrite (getV0Client_with_key env sdk [] apiKey Hk Hne), Ha.
  unfold create, await. cbv beta iota.
  change create_default_message with "Hello!".
  change create_default_system with "You are a helpful coding assistant.".
  fold message system. rewrite Hcreate. cbv beta iota.
  unfold fetchChatDetail, bind.
  rewrite (getV0Client_with_key env sdk _ apiKey Hk Hne).
  unfold getById, await. simpl app. rewrite Hget.
  unfold created, latest_content, latest_files, json_response, ret.
  destruct refreshed as [i w a sh p [[c [fs |] r] |] rest]; simpl;
    try rewrite map_map; reflexivity.
Qed.

Lemma POST_create_answers_refreshed_chat_witness :
  POST Samples.configured Samples.friendly
       (Samples.post_request (JObj [("action", JStr "create")]))
  = (Answered {| status := 200; body := created Samples.chat_1 |},
     [Sdk (Create (JStr "Hello!")
                  (JStr "You are a helpful coding assistant.") "sync")
          (GotChat Samples.chat_1);
      Sdk (GetById "chat_1") (GotChat Samples.chat_1)]).
Proof.
  apply (POST_create_answers_refreshed_chat
           Samples.configured Samples.friendly
           (Samples.post_request (JObj [("action", JStr "create")]))
           (JObj [("action", JStr "create")]) "sk-test"
           Samples.chat_1 Samples.chat_1);
    try reflexivity; discriminate.
Defined.

(** X5. A successful [send]: with [V0_API_KEY] configured and a truthy
    chatId and message, when the SDK answers with a chat the handler
    answers 200 with [success: true], the latest version's content or
    'Message sent successfully', and the latest version's files as the SDK
    returned them; [sendMessage] is the only SDK call, made with the body's
    chatId and message and responseMode 'sync'. *)
Theorem POST_send_answers_chat
    (env : Env) (sdk : SdkModule) (request : Request) (b : json)
    (apiKey : string) (chatId message : json) (chat : SdkChat) :
  json_body request = Fulfilled b ->
  strict_eq_string (prop b "action") "send" = true ->
  prop b "chatId" = Some chatId ->
  prop b "message" = Some message ->
  truthy chatId = true ->
  truthy message = true ->
  V0_API_KEY env = Some apiKey ->
  apiKey <> EmptyString ->
  chats_sendMessage (sdk apiKey) [] chatId message "sync"
  = Fulfilled (AChat chat) ->
  POST env sdk request
  = (Answered {| status := 200; body := sent chat |},
     [Sdk (SendMessage chatId message "sync") (GotChat chat)]).
Proof.
  intros Hb Ha Hc Hm Htc Htm Hk Hne Hsend.
  destruct (action_is _ _ Ha) as [Ea [props ->]].
  unfold POST, handle, POST_try, bind, request_json. rewrite Hb.
  cbv beta iota zeta delta [ret].
  rewrite (getV0Client_with_key env sdk [] apiKey Hk Hne), Ea, Hc, Hm.
  cbv beta iota zeta delta [strict_eq_string].
  change (String.eqb "send" "create") with false.
  change (String.eqb "send" "send") with true.
  cbv beta iota. rewrite Htc, Htm. cbn [negb orb].
  unfold sendMessage, await. rewrite Hsend.
  unfold sent, latest_content, latest_files, json_response.
  destruct chat as [i w a sh p [[c [fs |] r] |] rest]; reflexivity.
Qed.

Lemma POST_send_answers_chat_witness :
  POST Samples.configured Samples.friendly
       (Samples.post_request
          (JObj [("action", JStr "send"); ("chatId", JStr "chat_1");
                 ("message", JStr "Add a footer")]))
  = (Answered {| status := 200; body := sent Samples.chat_1 |},
     [Sdk (SendMessage (JStr "chat_1") (JStr "Add a footer") "sync")
          (GotChat Samples.chat_1)]).
Proof.
  apply (POST_send_answers_chat
           Samples.configured Samples.friendly
           (Samples.post_request
              (JObj [("action", JStr "send"); ("chatId", JStr "chat_1");
                     ("message", JStr "Add a footer")]))
           (JObj [("action", JStr "send"); ("chatId", JStr "chat_1");
                  ("message", JStr "Add a footer")])
           "sk-test" (JStr "chat_1") (JStr "Add a footer") Samples.chat_1);
    try reflexivity; discriminate.
Defined.

(** X6. Without [V0_API_KEY] neither handler asks anything of the SDK, and
    its answer and log do not depend on the SDK at all. *)
Theorem missing_key_never_reaches_sdk
    (env : Env) (sdk sdk' : SdkModule) (request : Request) :
  key_missing env = true ->
  sdk_calls (snd (GET env sdk request)) = []
  /\ sdk_calls (snd (POST env sdk request)) = []
  /\ GET env sdk request = GET env sdk' request
  /\ POST env sdk request = POST env sdk' request.
Proof.
  intros Hk.
  assert (Hc : forall s log,
             getV0Client env s log
             = (log, Throw (JsError missing_key_message)))
    by (intros; apply getV0Client_missing; exact Hk).
  assert (HG : forall s,
             GET env s request
             = handle "V0 Chat GET Error:" "Failed to fetch chat details"
                 (match searchParams_get request "chatId" with
                  | None => GET_try env sdk request
                  | Some c =>
                      if negb (truthy_string c) then GET_try env sdk request
                      else throw (JsError missing_key_message)
                  end)).
  { intros s. unfold GET, handle, GET_try.
    destruct (searchParams_get request "chatId") as [c |]; [| reflexivity].
    destruct (truthy_string c); [| reflexivity].
    cbn [negb]. unfold fetchChatDetail, bind. rewrite Hc. reflexivity. }
  assert (HP : forall s,
             POST env s request
             = handle "V0 Chat API Error:" "Failed to process chat request"
                 (match json_body request with
                  | Rejected t => throw t
                  | Fulfilled JNull => throw (JsError destructure_null_message)
                  | Fulfilled _ => throw (JsError missing_key_message)
                  end)).
  { intros s. unfold POST, handle, POST_try, bind, request_json.
    destruct (json_body request) as [b | t]; [| reflexivity].
    cbv beta iota zeta delta [ret].
    destruct b; try reflexivity; rewrite Hc; reflexivity. }
  split; [| split; [| split]].
  - rewrite (HG sdk). unfold handle, GET_try.
    destruct (searchParams_get request "chatId") as [c |]; [| reflexivity].
    destruct (truthy_string c); reflexivity.
  - rewrite (HP sdk). unfold handle.
    destruct (json_body request) as [b | t]; [destruct b |]; reflexivity.
  - rewrite (HG sdk), (HG sdk'). reflexivity.
  - rewrite (HP sdk), (HP sdk'). reflexivity.
Qed.

Lemma missing_key_never_reaches_sdk_witness :
  sdk_calls (snd (POST Samples.unconfigured Samples.friendly
                       (Samples.post_request
                          (JObj [("action", JStr "create")])))) = []
  /\ GET Samples.unconfigured Samples.friendly
         (Samples.get_request [("chatId", "chat_1")])
     = GET Samples.unconfigured Samples.refusing
           (Samples.get_request [("chatId", "chat_1")]).
Proof.
  split.
  - apply (missing_key_never_reaches_sdk Samples.unconfigured
             Samples.friendly Samples.refusing
             (Samples.post_request (JObj [("action", JStr "create")]))).
    reflexivity.
  - apply (missing_key_never_reaches_sdk Samples.unconfigured
             Samples.friendly Samples.refusing
             (Samples.get_request [("chatId", "chat_1")])).
    reflexivity.
Defined.

Ltac find_in_log :=
  simpl; repeat (first [left; reflexivity | right]).

Ltac settle_shape :=
  subst;
  unfold answers_or_escapes, well_formed, json_response, json_response_with,
    error_status;
  cbn [fst snd status body];
  first
    [ left; split; [reflexivity | split; [reflexivity | eexists; reflexivity]]
    | right; split;
      [left; reflexivity
      | left; eexists; split; [reflexivity | discriminate]]
    | match goal with
      | |- context [includes ?m ?k] =>
          let E := fresh "E" in
          destruct (includes m k) eqn:E; right;
          (split;
           [first [right; reflexivity | left; reflexivity]
           | left; eexists; split;
             [reflexivity | first [intros _; exact E | discriminate]]])
      end
    | right; split;
      [first [left; reflexivity | right; reflexivity]
      | right; eexists; reflexivity]
    | do 2 eexists; split; [find_in_log | reflexivity] ].

(** X7. Whatever the environment, the SDK and the request, GET and POST
    either answer, with 200 and an object that has no [error] field or with
    400 or 500 and an object whose only field is [error] (a string, which
    mentions "V0_API_KEY" when the status is 500, or the array an [Error]
    carried as its message), or let a [TypeError] leave the handler; the
    latter happens exactly when an SDK call was rejected with an [Error]
    whose message is neither a string nor an array. *)
Theorem answers_well_formed
    (env : Env) (sdk : SdkModule) (request : Request) :
  answers_or_escapes (GET env sdk request)
  /\ answers_or_escapes (POST env sdk request)
  /\ (forall call message,
         In (Sdk call (Threw (OddError message))) (snd (GET env sdk request)) ->
         has_includes message = false ->
         exists error, fst (GET env sdk request) = Escaped error)
  /\ (forall call message,
         In (Sdk call (Threw (OddError message)))
            (snd (POST env sdk request)) ->
         has_includes message = false ->
         exists error, fst (POST env sdk request) = Escaped error).
Proof.
  split; [| split; [| split]].
  - remember (GET env sdk request) as r eqn:E.
    split_handler; settle_shape.
  - remember (POST env sdk request) as r eqn:E.
    split_handler; settle_shape.
  - intros call message H Hno.
    remember (fst (GET env sdk request)) as outcome eqn:E.
    split_handler; subst outcome; search_log H; inversion H; subst;
      first [discriminate Hno | eexists; reflexivity].
  - intros call message H Hno.
    remember (fst (POST env sdk request)) as outcome eqn:E.
    split_handler; subst outcome; search_log H; inversion H; subst;
      first [discriminate Hno | eexists; reflexivity].
Qed.

Lemma answers_well_formed_witness :
  exists error,
    fst (GET Samples.configured Samples.messageless
             (Samples.get_request [("chatId", "chat_1")]))
    = Escaped error.
Proof.
  apply (proj1 (proj2 (proj2
           (answers_well_formed Samples.configured Samples.messageless
              (Samples.get_request [("chatId", "chat_1")]))))
           (GetById "chat_1") None).
  - simpl. left. reflexivity.
  - reflexivity.
Defined.

(** X8. The SDK calls of a GET are, in this order, [getById] and
    [findMessages] with limit 50, both for the chatId of the query, the
    second only after the first succeeded; there is a call only when the
    chatId is non-empty and the key configured, and a 200 is given only
    after both calls were made. *)
Theorem GET_calls_in_order
    (env : Env) (sdk : SdkModule) (request : Request) :
  (sdk_calls (snd (GET env sdk request)) = []
   \/ exists c,
        searchParams_get request "chatId" = Some c
        /\ truthy_string c = true
        /\ key_missing env = false
        /\ ((sdk_calls (snd (GET env sdk request)) = [GetById c]
             /\ exists t, snd (GET env sdk request)
                          = [Sdk (GetById c) (Threw t);
                             ConsoleError "V0 Chat GET Error:" t])
            \/ exists chat,
                 sdk_calls (snd (GET env sdk request))
                 = [GetById c; FindMessages c 50]
                 /\ In (Sdk (GetById c) (GotChat chat))
                       (snd (GET env sdk request))))
  /\ (forall response,
      fst (GET env sdk request) = Answered response ->
      status response = 200 ->
      exists c,
        sdk_calls (snd (GET env sdk request))
        = [GetById c; FindMessages c 50]).
Proof.
  unfold key_missing.
  remember (GET env sdk request) as r eqn:E.
  split_handler; subst r; cbn [fst snd]; simpl sdk_calls; split;
    try (left; reflexivity);
    try (intros response Hr Hs;
         first
           [ discriminate Hr
           | injection Hr as <-;
             cbn [status json_response_with json_response] in Hs;
             first
               [ discriminate Hs
               | eexists; reflexivity
               | unfold error_status in Hs;
                 match type of Hs with
                 | context [if ?c then _ else _] =>
                     destruct c; discriminate Hs
                 end ] ]).
  all: right; eexists; split; [reflexivity |];
    split; [apply negb_false_iff; assumption |]; split; [reflexivity |].
  all: first [ left; split; [reflexivity | eexists; reflexivity]
             | right; eexists; split; [reflexivity | simpl; auto] ].
Qed.

Lemma GET_calls_in_order_witness :
  exists c,
    sdk_calls (snd (GET Samples.configured Samples.friendly
                        (Samples.get_request [("chatId", "chat_1")])))
    = [GetById c; FindMessages c 50].
Proof.
  apply (proj2 (GET_calls_in_order Samples.configured Samples.friendly
                  (Samples.get_request [("chatId", "chat_1")]))
               {| status := 200;
                  body := flattened Samples.chat_1
                            {| r_data := Some [Samples.message_1] |} |});
    reflexivity.
Defined.

(** X9. The SDK calls of a POST are none, or one [create], or one [create]
    followed by [getById] for the id of the chat that [create] returned, or
    one [sendMessage] whose chatId and message are truthy; [create] and
    [sendMessage] are always called with responseMode 'sync', and
    [findMessages] is never called. *)
Theorem POST_calls_in_order
    (env : Env) (sdk : SdkModule) (request : Request) :
  (sdk_calls (snd (POST env sdk request)) = []
   \/ (exists message system,
          sdk_calls (snd (POST env sdk request))
          = [Create message system "sync"])
   \/ (exists message system chat,
          sdk_calls (snd (POST env sdk request))
          = [Create message system "sync"; GetById (c_id chat)]
          /\ In (Sdk (Create message system "sync") (GotChat chat))
                (snd (POST env sdk request)))
   \/ (exists chatId message,
          sdk_calls (snd (POST env sdk request))
          = [SendMessage chatId message "sync"]
          /\ truthy chatId = true /\ truthy message = true))
  /\ (forall c n, ~ In (FindMessages c n)
                       (sdk_calls (snd (POST env sdk request)))).
Proof.
  remember (POST env sdk request) as r eqn:E.
  split_handler; subst r; cbn [fst snd]; simpl sdk_calls;
    (split; [| intros ? ? HIn; simpl in HIn; intuition discriminate]).
  all: try (left; reflexivity).
  all: try (right; left; do 2 eexists; reflexivity).
  all: try (right; right; left; do 3 eexists;
            split; [reflexivity | simpl; auto]).
  all: right; right; right; do 2 eexists; split; [reflexivity |].
  all: match goal with
       | H : (negb _ || negb _) = false |- _ =>
           apply orb_false_elim in H; destruct H as [H1 H2];
           apply negb_false_iff in H1; apply negb_false_iff in H2; auto
       end.
Qed.

Lemma POST_calls_in_order_witness :
  ~ In (FindMessages "chat_1" 50)
       (sdk_calls (snd (POST Samples.configured Samples.friendly
                             (Samples.post_request
                                (JObj [("action", JStr "create")]))))).
Proof.
  apply (proj2 (POST_calls_in_order Samples.configured Samples.friendly
                  (Samples.post_request (JObj [("action", JStr "create")])))).
Defined.

End RouteProperties.

(** ** Properties of the header *)

Section HeaderProperties.
Import Js AppHeader AppHeaderView.

Lemma nonempty_truthy (s : string) :
  truthy_string s = true <-> s <> EmptyString.
Proof.
  unfold truthy_string. destruct (String.eqb_spec s EmptyString); simpl; split;
    congruence.
Qed.

Lemma reachable_run (st : State) (evs : list Event) :
  reachable st (run st evs).
Proof.
  unfold run. rewrite <- fold_left_rev_right.
  induction (rev evs) as [| ev evs' IH]; simpl.
  - apply reach_start.
  - apply reach_step. exact IH.
Qed.

(** Examples: a few runs of the header. *)
Example select_then_push :
  let st := run HeaderSamples.fresh
                [OwnerChange "octo"; RepoChange "shop";
                 BranchInputChange EmptyString; PushClicked] in
  selection st = Some {| owner := "octo"; repo := "shop"; branch := "main" |}
  /\ status (pushState st) = loading
  /\ push_body (fun s => s) st
     = Some {| b_owner := "octo"; b_repo := "shop"; b_branch := "main";
               b_commitMessage := default_commit_message |}.
Proof. repeat split. Qed.

Example repo_without_owner_ignored :
  selection (run HeaderSamples.fresh [RepoChange "shop"]) = None.
Proof. reflexivity. Qed.

(** Every transition keeps a repo under an owner. *)
Lemma step_keeps_repo_under_owner (st : State) (ev : Event) :
  repo_has_owner (selection st) -> repo_has_owner (selection (step st ev)).
Proof.
  intros Hinv. destruct ev; simpl.
  - exact Hinv.
  - destruct r; exact Hinv.
  - unfold sessionEffect. destruct (has_user st); simpl; auto.
  - unfold loadStatus_settle, fetchGitHubStatus_settle.
    destruct r as [t | code | t | data]; simpl;
      try (destruct isMounted; simpl; exact I).
    destruct (connected data), isMounted; simpl; auto.
  - exact Hinv.
  - unfold handleOwnerChange.
    destruct (truthy_string value); simpl; auto; congruence.
  - unfold handleRepoChange.
    destruct (truthy_string value); simpl;
      destruct (selection st) as [p |]; simpl; auto; try congruence.
    destruct (truthy_string (owner p)) eqn:E; simpl; auto.
    intros _. apply nonempty_truthy. exact E.
  - unfold handleBranchInputChange. simpl.
    destruct (selection st) as [p |]; simpl; auto.
  - exact Hinv.
  - destruct r; simpl; auto.
  - unfold handlePushToGitHub_start. destruct (can_push st); exact Hinv.
  - unfold handlePushToGitHub_settle.
    destruct r as [t | ok parsed]; simpl; auto.
    destruct (negb ok); simpl; auto.
    destruct (match d_noChanges _ with Some b => b | None => false end);
      simpl; auto.
Qed.

(** C7. Every event that disconnects GitHub (a status answer with
    [connected = false], a failed status fetch, the session effect without
    a user, a completed sign-out) leaves, in the same step, the connection
    disconnected and the repository selection [null]; and more generally,
    whatever the event, a step that takes the connection from connected
    to disconnected leaves the selection [null]. *)
Theorem disconnect_clears_selection (st : State) (ev : Event) :
  (disconnects st ev = true ->
   selection (step st ev) = None
   /\ conn_connected (githubConnection (step st ev)) = false)
  /\ (conn_connected (githubConnection st) = true ->
      conn_connected (githubConnection (step st ev)) = false ->
      selection (step st ev) = None).
Proof.
  split.
  - destruct ev; simpl; try discriminate.
    + unfold sessionEffect. intros ->. split; reflexivity.
    + unfold loadStatus_settle, fetchGitHubStatus_settle.
      destruct r as [t | code | t | data]; simpl;
        try (intros _; destruct isMounted; split; reflexivity).
      destruct (connected data) eqn:E; simpl; try discriminate.
      intros _. destruct isMounted; split; simpl; auto.
    + destruct r; try discriminate. intros _. split; reflexivity.
  - intros Hon. destruct ev; simpl;
      try (intros Hoff; congruence).
    + destruct r; simpl; intros Hoff; congruence.
    + unfold sessionEffect. destruct (has_user st); simpl; auto.
      intros Hoff; congruence.
    + unfold loadStatus_settle, fetchGitHubStatus_settle.
      destruct r as [t | code | t | data]; simpl;
        try (intros _; destruct isMounted; reflexivity).
      destruct (connected data) eqn:E, isMounted; simpl; auto;
        intros Hoff; congruence.
    + unfold handleOwnerChange. destruct (truthy_string value); simpl; auto.
      intros Hoff; congruence.
    + unfold handleRepoChange. destruct (truthy_string value); simpl;
        intros Hoff; congruence.
    + destruct r; simpl; auto; intros Hoff; congruence.
    + unfold handlePushToGitHub_start. destruct (can_push st); simpl;
        intros Hoff; congruence.
    + unfold handlePushToGitHub_settle.
      destruct r as [t | ok parsed]; simpl; try (intros Hoff; congruence).
      destruct (negb ok); simpl; try (intros Hoff; congruence).
      destruct (match d_noChanges _ with Some b => b | None => false end);
        simpl; intros Hoff; congruence.
Qed.

Lemma disconnect_clears_selection_witness :
  disconnects HeaderSamples.pushed (SignOutSettled (JsonOk {| url := None |}))
  = true
  /\ selection (step HeaderSamples.pushed
                     (SignOutSettled (JsonOk {| url := None |}))) = None
  /\ conn_connected
       (githubConnection
          (step HeaderSamples.pushed
                (SignOutSettled (JsonOk {| url := None |})))) = false.
Proof.
  split; [reflexivity |].
  apply (proj1 (disconnect_clears_selection HeaderSamples.pushed
                  (SignOutSettled (JsonOk {| url := None |})))).
  reflexivity.
Defined.

(** C8. A repo is only ever set under an owner: [handleRepoChange] with a
    non-empty repo leaves the selection as it is when the selection has no
    owner; [handleOwnerChange] always leaves the selected repo empty; and
    from any start in which a non-empty repo has a non-empty owner (in
    particular from no selection at all), every reachable selection with a
    non-empty repo has a non-empty owner. *)
Theorem selection_requires_owner :
  (forall st repo',
      repo' <> EmptyString ->
      selectedOwner st = EmptyString ->
      selection (handleRepoChange repo' st) = selection st)
  /\ (forall st owner',
      selectedRepo (handleOwnerChange owner' st) = EmptyString)
  /\ (forall st0 st,
      repo_has_owner (selection st0) ->
      reachable st0 st ->
      selectedRepo st <> EmptyString -> selectedOwner st <> EmptyString).
Proof.
  split; [| split].
  - intros st repo' Hrepo Howner. apply nonempty_truthy in Hrepo.
    unfold handleRepoChange, selectedOwner in *. rewrite Hrepo. simpl.
    destruct (selection st) as [p |]; [| reflexivity].
    rewrite Howner. reflexivity.
  - intros st owner'. unfold handleOwnerChange, selectedRepo.
    destruct (truthy_string owner'); reflexivity.
  - intros st0 st Hinv Hreach.
    assert (Hkept : repo_has_owner (selection st)).
    { induction Hreach as [| st ev _ IH].
      - exact Hinv.
      - apply step_keeps_repo_under_owner. exact IH. }
    unfold repo_has_owner, selectedRepo, selectedOwner in *.
    destruct (selection st); [exact Hkept | congruence].
Qed.

Lemma selection_requires_owner_witness :
  selection (handleRepoChange "shop" HeaderSamples.fresh)
  = selection HeaderSamples.fresh
  /\ selectedOwner
       (run HeaderSamples.fresh [OwnerChange "octo"; RepoChange "shop"])
     <> EmptyString.
Proof.
  split.
  - apply (proj1 selection_requires_owner HeaderSamples.fresh "shop");
      [discriminate | reflexivity].
  - apply (proj2 (proj2 selection_requires_owner) HeaderSamples.fresh
             (run HeaderSamples.fresh [OwnerChange "octo"; RepoChange "shop"])).
    + exact I.
    + apply reachable_run.
    + discriminate.
Defined.

(** C9, as stated, fails for an edit that empties the owner (or the repo):
    the handler returns before [setPushState], so the push state keeps the
    outcome of the last push. *)
Lemma emptied_owner_keeps_push_state :
  is_field_edit (OwnerChange EmptyString) = true
  /\ status (pushState HeaderSamples.pushed) = success
  /\ status (pushState (step HeaderSamples.pushed (OwnerChange EmptyString)))
     = success
  /\ status (pushState (step HeaderSamples.pushed (RepoChange EmptyString)))
     = success
  /\ pushState (step HeaderSamples.pushed (OwnerChange EmptyString))
     <> idle_state.
Proof. repeat split. discriminate. Qed.

(** C9 (amended). Every owner or repo change to a non-empty value, and
    every change of the branch input or of the commit message whatever
    the value, resets the push state to idle in the same step. *)
Theorem edits_reset_push_state (st : State) (ev : Event) :
  (is_field_edit ev = true ->
   (forall v, ev = OwnerChange v \/ ev = RepoChange v -> v <> EmptyString) ->
   pushState (step st ev) = {| status := idle; message := None |})
  /\ (forall v, pushState (step st (BranchInputChange v)) = idle_state)
  /\ (forall v, pushState (step st (CommitMessageChange v)) = idle_state).
Proof.
  split; [| split; reflexivity].
  intros Hedit Hvalue. destruct ev; try discriminate Hedit; simpl.
  - assert (H : truthy_string value = true)
      by (apply nonempty_truthy; apply Hvalue; auto).
    unfold handleOwnerChange. rewrite H. reflexivity.
  - assert (H : truthy_string value = true)
      by (apply nonempty_truthy; apply Hvalue; auto).
    unfold handleRepoChange. rewrite H. reflexivity.
  - reflexivity.
  - reflexivity.
Qed.

Lemma edits_reset_push_state_witness :
  pushState (step HeaderSamples.pushed (RepoChange "store")) = idle_state.
Proof.
  apply (proj1 (edits_reset_push_state HeaderSamples.pushed
                  (RepoChange "store"))).
  - reflexivity.
  - intros v [H | H]; inversion H; discriminate.
Defined.

Lemma step_keeps_branch (st : State) (ev : Event) :
  selectedBranch st <> EmptyString /\ branchInput st <> EmptyString ->
  selectedBranch (step st ev) <> EmptyString
  /\ branchInput (step st ev) <> EmptyString.
Proof.
  intros [Hsel Hin]. unfold selectedBranch in *.
  destruct ev; simpl.
  - auto.
  - destruct r; auto.
  - unfold sessionEffect. destruct (has_user st); simpl; auto.
    split; [discriminate | exact Hin].
  - unfold loadStatus_settle, fetchGitHubStatus_settle.
    destruct r as [t | code | t | data]; simpl;
      try (destruct isMounted; simpl; (split; [discriminate | exact Hin])).
    destruct (connected data), isMounted; simpl; auto;
      split; try discriminate; exact Hin.
  - unfold branchEffect, selectedBranch. simpl. auto.
  - unfold handleOwnerChange. destruct (truthy_string value); simpl.
    + split; [| exact Hin]. destruct (selection st); [exact Hsel | discriminate].
    + split; [discriminate | exact Hin].
  - unfold handleRepoChange. destruct (truthy_string value); simpl;
      (split; [| exact Hin]);
      destruct (selection st) as [p |]; simpl; auto.
    destruct (truthy_string (owner p)); simpl; auto.
  - unfold handleBranchInputChange. simpl.
    assert (Hv : (if truthy_string value then value else "main")
                 <> EmptyString).
    { destruct (truthy_string value) eqn:E;
        [apply nonempty_truthy; exact E | discriminate]. }
    split; [| exact Hv].
    destruct (selection st); simpl; [exact Hv | discriminate].
  - auto.
  - destruct r; simpl; auto. split; [discriminate | exact Hin].
  - unfold handlePushToGitHub_start. destruct (can_push st); simpl; auto.
  - unfold handlePushToGitHub_settle.
    destruct r as [t | ok parsed]; simpl; auto.
    destruct (negb ok); simpl; auto.
    destruct (match d_noChanges _ with Some b => b | None => false end);
      simpl; auto.
Qed.

(** C10. The branch the header uses is never empty:
    [handleBranchInputChange] turns an empty input into "main" (and keeps
    any other input), so that neither the branch input nor the selected
    branch is empty afterwards; the selected branch is "main" when there
    is no selection; the body [handlePushToGitHub] posts always carries a
    non-empty branch, "main" when the branch input is empty; and no run
    of the header that starts with a non-empty branch reaches an empty
    one. *)
Theorem branch_never_empty :
  (forall st input,
      branchInput (handleBranchInputChange input st)
      = (if truthy_string input then input else "main")
      /\ (input = EmptyString ->
          branchInput (handleBranchInputChange input st) = "main")
      /\ branchInput (handleBranchInputChange input st) <> EmptyString
      /\ selectedBranch (handleBranchInputChange input st) <> EmptyString)
  /\ (forall st, selection st = None -> selectedBranch st = "main")
  /\ (forall trim st request,
      push_body trim st = Some request ->
      b_branch request <> EmptyString
      /\ (branchInput st = EmptyString -> b_branch request = "main"))
  /\ (forall st0 st,
      selectedBranch st0 <> EmptyString ->
      branchInput st0 <> EmptyString ->
      reachable st0 st ->
      selectedBranch st <> EmptyString /\ branchInput st <> EmptyString).
Proof.
  split; [| split; [| split]].
  - intros st input.
    assert (Hv : (if truthy_string input then input else "main")
                 <> EmptyString).
    { destruct (truthy_string input) eqn:E;
        [apply nonempty_truthy; exact E | discriminate]. }
    split; [reflexivity |]. split; [intros ->; reflexivity |].
    split; [exact Hv |].
    unfold selectedBranch, handleBranchInputChange. simpl.
    destruct (selection st); simpl; [exact Hv | discriminate].
  - intros st H. unfold selectedBranch. rewrite H. reflexivity.
  - intros trim st request. unfold push_body.
    destruct (selection st) as [s |]; [| discriminate].
    destruct (truthy_string (owner s) && truthy_string (repo s));
      [| discriminate].
    intros H. injection H as <-. simpl. split.
    + destruct (truthy_string (branchInput st)) eqn:E;
        [apply nonempty_truthy; exact E | discriminate].
    + intros ->. reflexivity.
  - intros st0 st Hsel Hin Hreach.
    induction Hreach as [| st ev _ IH].
    + auto.
    + apply step_keeps_branch. exact IH.
Qed.

Lemma branch_never_empty_witness :
  selectedBranch HeaderSamples.fresh = "main"
  /\ b_branch {| b_owner := "octo"; b_repo := "shop"; b_branch := "main";
                 b_commitMessage := default_commit_message |}
     <> EmptyString
  /\ branchInput (run HeaderSamples.pushed [BranchInputChange EmptyString])
     <> EmptyString.
Proof.
  split; [| split].
  - apply (proj1 (proj2 branch_never_empty) HeaderSamples.fresh).
    reflexivity.
  - apply (proj1 (proj2 (proj2 branch_never_empty)) (fun s => s)
             (setBranchInput EmptyString HeaderSamples.pushed)).
    reflexivity.
  - apply (proj2 (proj2 (proj2 branch_never_empty)) HeaderSamples.pushed
             (run HeaderSamples.pushed [BranchInputChange EmptyString])).
    + discriminate.
    + discriminate.
    + apply reachable_run.
Defined.

(** ** Further properties of the header *)

(** X10. The [isMounted] flag changes nothing: when the status answer
    arrives, an unmounted header writes exactly the state a mounted one
    writes, which is the state [fetchGitHubStatus] itself leaves. *)
Theorem isMounted_guards_nothing
    (r : fetched GitHubStatusResponse) (st : State) :
  loadStatus_settle r false st = loadStatus_settle r true st
  /\ forall isMounted,
       loadStatus_settle r isMounted st = fst (fetchGitHubStatus_settle r st).
Proof.
  assert (H : forall isMounted,
             loadStatus_settle r isMounted st
             = fst (fetchGitHubStatus_settle r st)).
  { intros isMounted. unfold loadStatus_settle, fetchGitHubStatus_settle.
    destruct r as [t | code | t | data]; simpl;
      try (destruct isMounted; reflexivity).
    destruct (connected data), isMounted; reflexivity. }
  split; [rewrite !H; reflexivity | exact H].
Qed.

(** X11. When the GitHub status answer arrives the header stops loading and
    marks the connection initialised, whatever the answer; it is connected
    afterwards exactly when the answer was read and says [connected], in
    which case the selection is kept, and in every other case the selection
    is [null]. *)
Theorem status_answer_settles
    (r : fetched GitHubStatusResponse) (isMounted : bool) (st : State) :
  let st' := step st (StatusSettled r isMounted) in
  statusLoading st' = false
  /\ githubConnectionInitialized st' = true
  /\ (conn_connected (githubConnection st') = true
      <-> exists data, r = JsonOk data /\ connected data = true)
  /\ (conn_connected (githubConnection st') = true ->
      selection st' = selection st)
  /\ (conn_connected (githubConnection st') = false -> selection st' = None)
  /\ session st' = session st
  /\ pushState st' = pushState st.
Proof.
  simpl. unfold loadStatus_settle, fetchGitHubStatus_settle.
  destruct r as [t | code | t | data]; simpl;
    [destruct isMounted | destruct isMounted | destruct isMounted
    | destruct (connected data) eqn:E, isMounted]; simpl; rewrite ?E;
    repeat split;
    try reflexivity;
    try (intros H; discriminate H);
    try (intros [d [H Hd]];
         first [discriminate H | inversion H; subst; congruence]);
    try (intros _; eexists; split; [reflexivity | assumption]).
Qed.

Lemma status_answer_settles_witness :
  selection (step HeaderSamples.pushed (StatusSettled (NotOk 500) true))
  = None.
Proof.
  apply (proj1 (proj2 (proj2 (proj2 (proj2
           (status_answer_settles (NotOk 500) true HeaderSamples.pushed)))))).
  reflexivity.
Defined.

(** X12. A click on the push button does nothing unless an owner and a
    repo are selected, and otherwise puts the push state to loading; the
    answer to a push always ends in success or error with a message, in
    success exactly when the answer had [response.ok]; neither touches the
    selection. *)
Theorem push_lifecycle (st : State) :
  (can_push st = false -> step st PushClicked = st)
  /\ (can_push st = true ->
      pushState (step st PushClicked)
      = {| status := loading; message := None |})
  /\ selection (step st PushClicked) = selection st
  /\ forall r,
       (status (pushState (step st (PushSettled r))) = success
        \/ status (pushState (step st (PushSettled r))) = error)
       /\ message (pushState (step st (PushSettled r))) <> None
       /\ (status (pushState (step st (PushSettled r))) = success
           <-> exists data, r = PushAnswered true data)
       /\ selection (step st (PushSettled r)) = selection st.
Proof.
  simpl. unfold handlePushToGitHub_start. repeat split.
  - intros ->. reflexivity.
  - intros ->. reflexivity.
  - destruct (can_push st); reflexivity.
  - unfold handlePushToGitHub_settle. destruct r as [t | [|] parsed]; simpl;
      auto.
    destruct (match d_noChanges _ with Some b => b | None => false end);
      simpl; auto.
  - unfold handlePushToGitHub_settle. destruct r as [t | [|] parsed]; simpl;
      try discriminate.
    destruct (match d_noChanges _ with Some b => b | None => false end);
      simpl; discriminate.
  - unfold handlePushToGitHub_settle. destruct r as [t | [|] parsed]; simpl;
      try discriminate; eauto.
  - intros [data ->]. unfold handlePushToGitHub_settle. simpl.
    destruct (match d_noChanges _ with Some b => b | None => false end);
      reflexivity.
  - unfold handlePushToGitHub_settle. destruct r as [t | [|] parsed]; simpl;
      auto.
    destruct (match d_noChanges _ with Some b => b | None => false end);
      reflexivity.
Qed.

Lemma push_lifecycle_witness :
  pushState (step HeaderSamples.pushed PushClicked)
  = {| status := loading; message := None |}.
Proof.
  apply (proj1 (proj2 (push_lifecycle HeaderSamples.pushed))). reflexivity.
Defined.

(** X13. A push request is posted exactly when an owner and a repo are
    selected, which is also exactly when the link to the repository is
    shown and is implied by the push panel being rendered; the request
    carries the selected owner and repo, both non-empty, and a commit
    message that is never empty, whatever [trim] does. *)
Theorem push_body_complete (trim : string -> string) (st : State) :
  (push_body trim st <> None <-> can_push st = true)
  /\ (selectedFullName st <> None <-> can_push st = true)
  /\ (shows_push_panel st = true -> push_body trim st <> None)
  /\ forall request,
       push_body trim st = Some request ->
       b_owner request = selectedOwner st
       /\ b_repo request = selectedRepo st
       /\ b_owner request <> EmptyString
       /\ b_repo request <> EmptyString
       /\ b_commitMessage request <> EmptyString
       /\ selectedFullName st
          = Some (b_owner request ++ "/" ++ b_repo request)%string.
Proof.
  assert (Hpanel : shows_push_panel st = true -> can_push st = true).
  { unfold shows_push_panel. intros H.
    apply andb_prop in H. destruct H as [_ H].
    apply andb_prop in H. destruct H as [_ H]. exact H. }
  unfold push_body, selectedFullName, selectedOwner, selectedRepo in *.
  unfold can_push in *.
  destruct (selection st) as [s |];
    [destruct (truthy_string (owner s)) eqn:Eo;
     destruct (truthy_string (repo s)) eqn:Er |]; simpl in *.
  2-5: repeat split; try discriminate; try congruence;
       intros H; apply Hpanel in H; discriminate H.
  split; [split; [reflexivity | discriminate] |].
  split; [split; [reflexivity | discriminate] |].
  split; [discriminate |].
  intros request H. injection H as <-. simpl.
  repeat split.
  - apply nonempty_truthy. exact Eo.
  - apply nonempty_truthy. exact Er.
  - destruct (truthy_string (trim (commitMessage st))) eqn:Et;
      [apply nonempty_truthy; exact Et | discriminate].
Qed.

Lemma push_body_complete_witness :
  b_commitMessage
    {| b_owner := "octo"; b_repo := "shop"; b_branch := "main";
       b_commitMessage := default_commit_message |} <> EmptyString.
Proof.
  apply (proj2 (proj2 (proj2
           (push_body_complete (fun _ => EmptyString) HeaderSamples.pushed)))
           {| b_owner := "octo"; b_repo := "shop"; b_branch := "main";
              b_commitMessage := default_commit_message |}).
  reflexivity.
Defined.

(** A push answer that arrives after the selection was changed is written
    all the same. *)
Example late_push_answer_is_written :
  let st := run HeaderSamples.pushed
                [PushClicked; OwnerChange "acme"; RepoChange "store";
                 PushSettled (PushAnswered true None)] in
  selection st = Some {| owner := "acme"; repo := "store"; branch := "main" |}
  /\ pushState st = {| status := success;
                       message := Some "Pushed changes to GitHub." |}.
Proof. split; reflexivity. Qed.

(** X14. Whenever a step takes the header from a state in which no push is
    possible (owner or repo missing) to one in which it is, the push state
    is idle after that step.  The answer to a push, on the other hand, is
    written whatever the state is when it arrives, whatever is selected by
    then included. *)
Theorem push_state_fresh_on_new_target (st : State) (ev : Event) :
  (can_push st = false ->
   can_push (step st ev) = true ->
   pushState (step st ev) = idle_state)
  /\ (forall st' r,
      pushState (step st (PushSettled r))
      = pushState (step st' (PushSettled r))).
Proof.
  split;
    [| intros st' r; simpl; unfold handlePushToGitHub_settle;
       destruct r as [t | ok parsed]; simpl; [reflexivity |];
       destruct (negb ok); simpl; [reflexivity |];
       destruct (match d_noChanges _ with Some b => b | None => false end);
       reflexivity].
  unfold can_push. intros Hbefore. destruct ev; simpl.
  - intros H. congruence.
  - destruct r; simpl; intros H; congruence.
  - unfold sessionEffect. destruct (has_user st); simpl;
      [intros H; congruence | discriminate].
  - unfold loadStatus_settle, fetchGitHubStatus_settle.
    destruct r as [t | code | t | data]; simpl;
      try (destruct isMounted; simpl; discriminate).
    destruct (connected data), isMounted; simpl; try discriminate;
      intros H; congruence.
  - intros H. congruence.
  - unfold handleOwnerChange. destruct (truthy_string value); simpl;
      [rewrite andb_false_r |]; discriminate.
  - unfold handleRepoChange. destruct (truthy_string value); simpl;
      [reflexivity |].
    destruct (selection st); simpl; [rewrite andb_false_r |]; discriminate.
  - reflexivity.
  - reflexivity.
  - destruct r; simpl; try discriminate; intros H; congruence.
  - unfold handlePushToGitHub_start, can_push. rewrite Hbefore.
    intros H. congruence.
  - unfold handlePushToGitHub_settle.
    destruct r as [t | ok parsed]; simpl; try (intros H; congruence).
    destruct (negb ok); simpl; try (intros H; congruence).
    destruct (match d_noChanges _ with Some b => b | None => false end);
      simpl; intros H; congruence.
Qed.

Lemma push_state_fresh_on_new_target_witness :
  pushState
    (step (step HeaderSamples.pushed (RepoChange EmptyString))
          (RepoChange "store"))
  = idle_state.
Proof.
  apply (proj1 (push_state_fresh_on_new_target
                  (step HeaderSamples.pushed (RepoChange EmptyString))
                  (RepoChange "store"))); reflexivity.
Defined.

Lemma offered_step_keeps_connected (st : State) (ev : Event) :
  (selection st <> None -> conn_connected (githubConnection st) = true) ->
  offered st ev = true ->
  selection (step st ev) <> None ->
  conn_connected (githubConnection (step st ev)) = true.
Proof.
  intros Hinv Hoff. destruct ev; simpl in *.
  - exact Hinv.
  - destruct r; exact Hinv.
  - unfold sessionEffect. destruct (has_user st); simpl; auto.
  - unfold loadStatus_settle, fetchGitHubStatus_settle.
    destruct r as [t | code | t | data]; simpl;
      try (destruct isMounted; simpl; congruence).
    destruct (connected data) eqn:E, isMounted; simpl; rewrite ?E;
      auto; congruence.
  - exact Hinv.
  - unfold shows_repo_selector in Hoff.
    apply andb_prop in Hoff. destruct Hoff as [_ Hc].
    unfold handleOwnerChange. destruct (truthy_string value); simpl; auto.
  - unfold handleRepoChange. destruct (truthy_string value); simpl;
      destruct (selection st) as [p |]; simpl; intros H; apply Hinv;
      congruence.
  - unfold handleBranchInputChange. simpl.
    destruct (selection st) as [p |]; simpl; intros H; apply Hinv;
      congruence.
  - exact Hinv.
  - destruct r; simpl; auto; congruence.
  - unfold handlePushToGitHub_start. destruct (can_push st); exact Hinv.
  - unfold handlePushToGitHub_settle.
    destruct r as [t | ok parsed]; simpl; auto.
    destruct (negb ok); simpl; auto.
    destruct (match d_noChanges _ with Some b => b | None => false end);
      simpl; auto.
Qed.

(** X15. A selection exists only while GitHub is connected: from a start
    in which this holds (a header mounted with no selection, for one), it
    holds in every state reached through events the rendered header
    offers, whatever the network answers and whenever the effects run. *)
Theorem selection_only_while_connected (st0 st : State) :
  (selection st0 <> None -> conn_connected (githubConnection st0) = true) ->
  offered_reachable st0 st ->
  selection st <> None -> conn_connected (githubConnection st) = true.
Proof.
  intros Hinv Hreach.
  induction Hreach as [| st ev _ IH Hoff].
  - exact Hinv.
  - apply offered_step_keeps_connected; assumption.
Qed.

Lemma selection_only_while_connected_witness :
  conn_connected
    (githubConnection (step HeaderSamples.pushed (OwnerChange "acme")))
  = true.
Proof.
  apply (selection_only_while_connected HeaderSamples.pushed
           (step HeaderSamples.pushed (OwnerChange "acme"))).
  - reflexivity.
  - apply offered_step; [apply offered_start | reflexivity].
  - discriminate.
Defined.

(** X16. Choosing a non-empty owner and then a non-empty repo always ends
    with exactly that owner and repo selected, on the branch that was
    selected before ("main" when there was no selection), with a push
    possible and the push state idle. *)
Theorem owner_then_repo_selects (st : State) (owner' repo' : string) :
  owner' <> EmptyString ->
  repo' <> EmptyString ->
  let st' := run st [OwnerChange owner'; RepoChange repo'] in
  selection st'
  = Some {| owner := owner'; repo := repo'; branch := selectedBranch st |}
  /\ can_push st' = true
  /\ pushState st' = idle_state.
Proof.
  intros Ho Hr. apply nonempty_truthy in Ho. apply nonempty_truthy in Hr.
  unfold run, can_push, selectedBranch. simpl.
  unfold handleRepoChange, handleOwnerChange. rewrite Ho, Hr. simpl.
  rewrite ?Ho. simpl.
  destruct (selection st); rewrite Ho, Hr; auto.
Qed.

Lemma owner_then_repo_selects_witness :
  selection (run HeaderSamples.fresh [OwnerChange "octo"; RepoChange "shop"])
  = Some {| owner := "octo"; repo := "shop";
            branch := selectedBranch HeaderSamples.fresh |}.
Proof.
  apply (owner_then_repo_selects HeaderSamples.fresh "octo" "shop");
    discriminate.
Defined.

(** X17. When the session cannot be loaded, or is loaded without a user,
    the header ends signed out once the session effect has run: nothing is
    loading any more, GitHub is disconnected and marked initialised, and
    the selection is [null]; the session itself is [null] unless an answer
    was read. *)
Theorem no_user_ends_signed_out (r : fetched SessionInfo) (st : State) :
  match r with JsonOk data => user data = None | _ => True end ->
  let st' := run st [SessionFetchSettled r; SessionEffect] in
  sessionLoading st' = false
  /\ statusLoading st' = false
  /\ githubConnection st' = disconnected
  /\ githubConnectionInitialized st' = true
  /\ selection st' = None
  /\ has_user st' = false
  /\ (session st' = None <-> forall data, r <> JsonOk data).
Proof.
  intros Hr. unfold run. simpl.
  unfold sessionEffect, fetchSession_settle, has_user.
  destruct r as [t | code | t | data]; simpl.
  1-3: repeat split; try reflexivity; try discriminate.
  destruct data as [u a]. simpl in Hr. subst u. simpl.
  repeat split; try discriminate.
  intros H. exfalso. eapply H. reflexivity.
Qed.

Lemma no_user_ends_signed_out_witness :
  selection (run HeaderSamples.pushed
                 [SessionFetchSettled (NotOk 401); SessionEffect]) = None.
Proof.
  apply (no_user_ends_signed_out (NotOk 401) HeaderSamples.pushed). exact I.
Defined.

End HeaderProperties.
